(** * scripts/download_fonts.py: the font synchronisation script

    A shallow embedding of the script and the properties of its cache
    check, its two nested loops and its two [try]/[except] blocks.

    The script talks to two things outside of it: the HTTP endpoints and the
    file system under the fonts directory.  The file system is a finite map
    from paths to file contents; what the network and the operating system
    answer is an oracle [env], indexed by the number of answers taken so far,
    so that every sequence of answers is an [env].  Standard output is a
    UTF-8 stream, as Python opens it by default. *)

From Stdlib Require Import String Ascii List Bool Arith ZArith Lia Floats.
From stdpp Require Import gmap strings list fin_maps.
Import ListNotations.

Local Open Scope string_scope.
Local Open Scope nat_scope.

(** ** Values produced by [json.loads] *)

(** The Python objects [json.loads] can return.  An object keeps its members
    in the order of the body; [dict_lookup] reads it the way the [dict] built
    from it answers (on a repeated key the last member wins). *)
#[local] Set Warnings "-register-all".

Inductive json : Type :=
| JNull
| JBool (b : bool)
| JInt (n : Z)
| JFloat (x : float)
| JStr (s : string)
| JArr (items : list json)
| JObj (members : list (string * json)).

Fixpoint dict_lookup (members : list (string * json)) (key : string) : option json :=
  match members with
  | [] => None
  | (k, v) :: rest =>
      match dict_lookup rest key with
      | Some w => Some w
      | None => if String.eqb k key then Some v else None
      end
  end.

(** [d.get(key, dflt)] on a dict. *)
Definition dict_get (members : list (string * json)) (key : string) (dflt : json) : json :=
  default dflt (dict_lookup members key).

(** Keys of a dict in insertion order: a repeated key keeps its first place. *)
Fixpoint dict_keys (seen : list string) (members : list (string * json)) : list string :=
  match members with
  | [] => []
  | (k, _) :: rest =>
      if existsb (String.eqb k) seen then dict_keys seen rest
      else k :: dict_keys (k :: seen) rest
  end.

Fixpoint str_chars (s : string) : list json :=
  match s with
  | EmptyString => []
  | String c rest => JStr (String c EmptyString) :: str_chars rest
  end.

(** Exceptions that no [except] clause of the script is in scope for. *)
Inductive exn : Type :=
| AttributeError       (* [x.get] on a value that is not a dict *)
| TypeError            (* [for ... in x] on a value that is not iterable *)
| UnicodeEncodeError.  (* [print] of a text that stdout cannot encode *)

(** [x.get(key, dflt)]: only a dict has the method. *)
Definition py_get (x : json) (key : string) (dflt : json) : exn + json :=
  match x with
  | JObj members => inr (dict_get members key dflt)
  | _ => inl AttributeError
  end.

(** [for variant in x]: the elements the loop visits. *)
Definition py_iter (x : json) : exn + list json :=
  match x with
  | JArr items => inr items
  | JStr s => inr (str_chars s)
  | JObj members => inr (map JStr (dict_keys [] members))
  | JNull | JBool _ | JInt _ | JFloat _ => inl TypeError
  end.

(** Truth value of an object, as [not woff2_url] tests it. *)
Definition truthy (x : json) : bool :=
  match x with
  | JNull => false
  | JBool b => b
  | JInt n => negb (Z.eqb n 0)
  | JFloat x => negb (PrimFloat.eqb x PrimFloat.zero)
  | JStr s => negb (String.eqb s "")
  | JArr items => negb (Nat.eqb (length items) 0)
  | JObj members => negb (Nat.eqb (length members) 0)
  end.

(** ** Module-level constants *)

Definition FONT_IDS : list string :=
  ["montserrat"; "comfortaa"; "roboto"; "quicksand"; "oswald"; "inter";
   "frank-ruhl-libre"; "raleway"; "lato"; "open-sans"; "nunito"; "poppins"].

Definition WEIGHTS : list string := ["regular"; "600"; "700"].

Definition API_BASE : string := "https://gwfh.mranftl.com/api/fonts".

(** ** Names and paths *)

Definition api_url (font_id : string) : string :=
  API_BASE ++ "/" ++ font_id ++ "?subsets=latin&variants=regular,600,700".

(** [variant_id not in ('regular', '600', '700')], negated. *)
Definition supported (variant_id : string) : bool :=
  String.eqb variant_id "regular" || String.eqb variant_id "600"
  || String.eqb variant_id "700".

(** [weight = '400' if variant_id == 'regular' else variant_id] *)
Definition weight_of (variant_id : string) : string :=
  if String.eqb variant_id "regular" then "400" else variant_id.

(** [filename = f'{font_id}-{weight}.woff2'] *)
Definition filename_of (font_id weight : string) : string :=
  font_id ++ "-" ++ weight ++ ".woff2".

Fixpoint ends_with_sep (s : string) : bool :=
  match s with
  | EmptyString => false
  | String c EmptyString => Ascii.eqb c "/"
  | String _ rest => ends_with_sep rest
  end.

(** [os.path.join(a, b)] of posixpath. *)
Definition os_path_join (a b : string) : string :=
  if String.prefix "/" b then b
  else if String.eqb a "" || ends_with_sep a then a ++ b
  else a ++ "/" ++ b.

(** ** The world of the script *)

Abbreviation bytes := (list Byte.byte).

(** What the script prints.  The two prints of a download share one output
    line ([end=''] on the first), so the second carries the file name of the
    first; the metadata failure follows the header of its font. *)
Inductive line : Type :=
| PFont (font_id : string)              (* print(f'\n{font_id}:') *)
| PMetaFail (font_id e : string)        (* print(f'  FAIL to fetch metadata: {e}') *)
| PExists (filename : string)           (* print(f'  exists: {filename}') *)
| PDownloading (filename : string)      (* print(f'  downloading: {filename} ...', end='') *)
| PDownloaded (filename : string) (kb : nat)  (* print(f' {size//1024}KB ...') *)
| PFail (filename e : string)           (* print(f' FAIL: {e}') *)
| PDone.                                (* print('\nDone.') *)

(** How far the statements of the second [try] block get:
<<
    req2 = urllib.request.Request(woff2_url, headers=headers)
    with urllib.request.urlopen(req2, timeout=15) as response, open(out, 'wb') as f:
        f.write(response.read())
>>
    [open(out, 'wb')] runs after [urlopen] returned and truncates the file
    before [response.read()] is called. *)
Inductive fetch_outcome : Type :=
| UrlopenFails (e : string)                 (* Request or urlopen raised *)
| OpenFails (e : string)                    (* open(out, 'wb') raised *)
| ReadFails (e : string)                    (* response.read() raised *)
| WriteFails (data : bytes) (k : nat) (e : string)
                                            (* write raised, k bytes reached the file *)
| Fetched (data : bytes).                   (* the body was written and the file closed *)

(** The answers of the outside world, the [t]-th of a run being asked for at
    time [t].  [fetch_metadata t url] stands for the
    first [try] block: [inl e] when [Request], [urlopen], [read] or
    [json.loads] raised [e], [inr data] when the body was parsed.
    [fetch_asset t url out] stands for the second one; [url] is the parsed
    value itself, since any value that is not falsy reaches [Request]. *)
Record env : Type := {
  fetch_metadata : nat -> string -> string + json;
  fetch_asset : nat -> json -> string -> fetch_outcome;
}.

Record state : Type := {
  fs : gmap string bytes;     (* regular files, by path *)
  clock : nat;                (* answers taken from [env] so far *)
  stdout : list line;
}.

Definition print (l : line) (s : state) : state :=
  {| fs := fs s; clock := clock s; stdout := stdout s ++ [l] |}.

Definition tick (s : state) : state :=
  {| fs := fs s; clock := S (clock s); stdout := stdout s |}.

Definition write_file (path : string) (content : bytes) (s : state) : state :=
  {| fs := <[path := content]> (fs s); clock := clock s; stdout := stdout s |}.

(** A run either reaches the end of what it executes or dies of an exception
    nothing catches; the files and the output written until then stay. *)
Inductive result : Type :=
| Completed (s : state)
| Uncaught (e : exn) (s : state).

Definition final (r : result) : state :=
  match r with Completed s | Uncaught _ s => s end.

Definition and_then (r : result) (k : state -> result) : result :=
  match r with
  | Completed s => k s
  | Uncaught e s => Uncaught e s
  end.

(** ** The cache check *)

(** [os.path.exists(out) and os.path.getsize(out) > 1000] *)
Definition cache_valid (files : gmap string bytes) (out : string) : bool :=
  match files !! out with
  | Some content => 1000 <? length content
  | None => false
  end.

(** ** Texts that cannot be printed *)

(** Texts are held in UTF-8.  A surrogate code point (U+D800 to U+DFFF),
    which [json.loads] takes from an escape such as ["\ud800"] and which the
    message of an exception can repeat, is then the byte 237 (0xED) followed
    by a byte from 160 to 191 (0xA0 to 0xBF); no other code point has these
    two bytes. *)
Fixpoint has_surrogate (text : string) : bool :=
  match text with
  | EmptyString => false
  | String c rest =>
      match rest with
      | EmptyString => false
      | String d _ =>
          (N.eqb (N_of_ascii c) 237 && N.leb 160 (N_of_ascii d)
           && N.leb (N_of_ascii d) 191)
          || has_surrogate rest
      end
  end.

(** Whether stdout, a UTF-8 stream, takes a text: [print] raises
    [UnicodeEncodeError] for a text with a surrogate, before it writes any of
    it.  Of the texts the script prints, only the message of line 63 can
    repeat a text of a response (the URL of a variant): the font ids are
    ASCII slugs, and the message of line 35 is about a URL built from one,
    a status line, or a position in the body. *)
Definition encodable (text : string) : bool := negb (has_surrogate text).

(** ** The loops *)

(** The second [try] block, lines 56 to 61: the state it leaves and, when a
    statement of it raised, the message of the exception.  One answer of
    [env] is taken, whether or not a request left the machine. *)
Definition try_download (E : env) (filename out : string) (woff2_url : json)
    (s : state) : state * option string :=
  match fetch_asset E (clock s) woff2_url out with
  | UrlopenFails e => (tick s, Some e)
  | OpenFails e => (tick s, Some e)
  | ReadFails e => (write_file out [] (tick s), Some e)
  | WriteFails data k e => (write_file out (take k data) (tick s), Some e)
  | Fetched data =>
      let s2 := write_file out data (tick s) in
      let size := length data in
      (print (PDownloaded filename (size / 1024)) s2, None)
  end.

(** The handler of line 62, [print(f' FAIL: {e}')], which no [try] encloses. *)
Definition report_failure (filename e : string) (s : state) : result :=
  if encodable e then Completed (print (PFail filename e) s)
  else Uncaught UnicodeEncodeError s.

(** Lines 55 to 63: the announcement, the [try] block and its handler. *)
Definition download (E : env) (filename out : string) (woff2_url : json)
    (s : state) : result :=
  let s1 := print (PDownloading filename) s in
  match try_download E filename out woff2_url s1 with
  | (s2, None) => Completed s2
  | (s2, Some e) => report_failure filename e s2
  end.

(** One turn of the inner loop (the body of [for variant in ...]). *)
Definition process_variant (E : env) (base font_id : string) (variant : json)
    (s : state) : result :=
  match py_get variant "id" (JStr "") with
  | inl e => Uncaught e s
  | inr variant_id =>
    match py_get variant "woff2" (JStr "") with
    | inl e => Uncaught e s
    | inr woff2_url =>
      match variant_id with
      | JStr vid =>
          if negb (supported vid) then Completed s
          else if negb (truthy woff2_url) then Completed s
          else
            let weight := weight_of vid in
            let filename := filename_of font_id weight in
            let out := os_path_join base filename in
            if cache_valid (fs s) out then Completed (print (PExists filename) s)
            else download E filename out woff2_url s
      | _ => Completed s
      end
    end
  end.

Fixpoint run_variants (E : env) (base font_id : string) (variants : list json)
    (s : state) : result :=
  match variants with
  | [] => Completed s
  | variant :: rest =>
      and_then (process_variant E base font_id variant s)
               (run_variants E base font_id rest)
  end.

(** [for variant in data.get('variants', []): ...] *)
Definition download_variants (E : env) (base font_id : string) (data : json)
    (s : state) : result :=
  match py_get data "variants" (JArr []) with
  | inl e => Uncaught e s
  | inr v =>
      match py_iter v with
      | inl e => Uncaught e s
      | inr variants => run_variants E base font_id variants s
      end
  end.

(** One turn of the outer loop (the body of [for font_id in FONT_IDS]). *)
Definition process_font (E : env) (base font_id : string) (s : state) : result :=
  let s1 := print (PFont font_id) s in
  match fetch_metadata E (clock s1) (api_url font_id) with
  | inl e => Completed (print (PMetaFail font_id e) (tick s1))
  | inr data => download_variants E base font_id data (tick s1)
  end.

Fixpoint run_fonts (E : env) (base : string) (font_ids : list string)
    (s : state) : result :=
  match font_ids with
  | [] => Completed s
  | font_id :: rest =>
      and_then (process_font E base font_id s) (run_fonts E base rest)
  end.

(** The script from its loop to its last line, over a list of font ids;
    [base] is the fonts directory, which [os.makedirs] has made. *)
Definition sync (E : env) (base : string) (font_ids : list string) (s : state) : result :=
  and_then (run_fonts E base font_ids s) (fun s' => Completed (print PDone s')).

Definition main (E : env) (base : string) (s : state) : result :=
  sync E base FONT_IDS s.

(** Exit status of the interpreter: the script calls no [sys.exit], so it is
    0 when the last line was reached and 1 after an uncaught exception. *)
Definition exit_status (r : result) : Z :=
  match r with
  | Completed _ => 0%Z
  | Uncaught _ _ => 1%Z
  end.

(** ** Vocabulary of the statements *)

Local Open Scope list_scope.

Definition completed (r : result) : bool :=
  match r with Completed _ => true | Uncaught _ _ => false end.

(** The state a process starts in: nothing printed yet. *)
Definition fresh (files : gmap string bytes) (t : nat) : state :=
  {| fs := files; clock := t; stdout := [] |}.

Definition is_dict (x : json) : bool :=
  match x with JObj _ => true | _ => false end.

(** A parsed metadata body the two loops go through without an exception: an
    object whose ['variants'], when it is there, can be iterated and yields
    objects only. *)
Definition well_shaped (data : json) : bool :=
  match data with
  | JObj members =>
      match py_iter (dict_get members "variants" (JArr [])) with
      | inr variants => forallb is_dict variants
      | inl _ => false
      end
  | _ => false
  end.

(** What one turn of the inner loop is about: an exception, nothing (the
    variant is filtered out), or a file name and the URL to fetch it from. *)
Definition target (font_id : string) (variant : json) : exn + option (string * json) :=
  match variant with
  | JObj members =>
      match dict_get members "id" (JStr "") with
      | JStr vid =>
          if supported vid && truthy (dict_get members "woff2" (JStr ""))
          then inr (Some (filename_of font_id (weight_of vid),
                          dict_get members "woff2" (JStr "")))
          else inr None
      | _ => inr None
      end
  | _ => inl AttributeError
  end.

(** A variant the inner loop passes over without a line or a request. *)
Definition filtered_out (font_id : string) (variant : json) : bool :=
  match target font_id variant with inr None => true | _ => false end.

(** The failures of the second [try] block: the message that is printed and
    what the target file holds afterwards ([None]: it was not touched). *)
Definition failure_of (o : fetch_outcome) : option (string * option bytes) :=
  match o with
  | UrlopenFails e => Some (e, None)
  | OpenFails e => Some (e, None)
  | ReadFails e => Some (e, Some [])
  | WriteFails data k e => Some (e, Some (take k data))
  | Fetched _ => None
  end.

Definition after_failure (out : string) (left : option bytes) (s : state) : state :=
  match left with
  | None => s
  | Some content => write_file out content s
  end.

Definition failed_line (l : line) : bool :=
  match l with
  | PMetaFail _ _ | PFail _ _ => true
  | _ => false
  end.

(** A backend that answers a request the same way whenever it is asked. *)
Definition stable (E : env) : Prop :=
  (forall t t' url, fetch_metadata E t url = fetch_metadata E t' url) /\
  (forall t t' url out, fetch_asset E t url out = fetch_asset E t' url out).

(** Every message with which a download can fail is one stdout can print. *)
Definition printable (E : env) : Prop :=
  forall t url out e left,
    failure_of (fetch_asset E t url out) = Some (e, left) -> encodable e = true.

(** Whether a parsed body has a member of the given name; only an object
    has members. *)
Definition has_field (data : json) (key : string) : bool :=
  match data with
  | JObj members => match dict_lookup members key with Some _ => true | None => false end
  | _ => false
  end.

(** Every body the asset endpoint serves is longer than the cache check asks. *)
Definition serves_large (E : env) : Prop :=
  forall t url out data, fetch_asset E t url out = Fetched data -> 1000 < length data.

(** Properties of a piece of the script, seen as a state transformer. *)
Definition keeps (F : state -> result) : Prop :=
  forall s p, cache_valid (fs s) p = true -> fs (final (F s)) !! p = fs s !! p.

Definition grows (F : state -> result) : Prop :=
  forall s, exists new, stdout (final (F s)) = stdout s ++ new.

(** One piece after another; the second does not run when the first died. *)
Definition seq (F G : state -> result) : state -> result :=
  fun s => and_then (F s) G.

(** Two runs over the same backend: the second starts from files among
    which every file that passes the check at the end of the first run [ra]
    passes it too. *)
Definition settled (ra : result) (sb : state) : Prop :=
  forall p, cache_valid (fs (final ra)) p = true -> cache_valid (fs sb) p = true.

(** Run a second time, a piece of the script stops where it stopped before,
    downloads nothing, finds present what it had downloaded, and only asks
    again for what had failed. *)
Definition replays (F : state -> result) : Prop :=
  forall sa sb, settled (F sa) sb ->
    completed (F sb) = completed (F sa)
    /\ (forall fn kb, In (PDownloaded fn kb) (stdout (final (F sb))) ->
                      In (PDownloaded fn kb) (stdout sb))
    /\ (forall fn kb, In (PDownloaded fn kb) (stdout (final (F sa))) ->
                      In (PDownloaded fn kb) (stdout sa)
                      \/ In (PExists fn) (stdout (final (F sb))))
    /\ (forall fn, In (PDownloading fn) (stdout (final (F sb))) ->
                   In (PDownloading fn) (stdout sb)
                   \/ exists e, In (PFail fn e) (stdout (final (F sa)))).

(** A download is only started for a file that fails the cache check. *)
Definition attempts_invalid (base : string) (F : state -> result) : Prop :=
  forall s fn, In (PDownloading fn) (stdout (final (F s))) ->
    In (PDownloading fn) (stdout s)
    \/ cache_valid (fs s) (os_path_join base fn) = false.

(** ** Concrete backends and caches *)

Definition payload (n : nat) : bytes := repeat Byte.x01 n.

Definition variant_entry (variant_id url : string) : json :=
  JObj [("id", JStr variant_id); ("woff2", JStr url)].

(** A backend whose answers depend on the URL alone. *)
Definition mock (meta : string -> string + json) (asset : string -> fetch_outcome) : env :=
  {| fetch_metadata := fun _ url => meta url;
     fetch_asset := fun _ url _ =>
       match url with
       | JStr u => asset u
       | _ => UrlopenFails "unknown url type"
       end |}.

(** The metadata of a font with a regular and a bold variant; the service
    answers 500 for the font ["alpha"]. *)
Definition two_variants (url : string) : string + json :=
  if String.eqb url (api_url "alpha") then inl "HTTP Error 500: Internal Server Error"
  else inr (JObj [("id", JStr "demo");
                  ("variants", JArr [variant_entry "regular" "URL_A";
                                     variant_entry "300" "URL_C";
                                     variant_entry "700" "URL_B"])]).

(** Bodies of [n] bytes for ["URL_A"] and ["URL_B"], 404 for any other URL. *)
Definition serve (n : nat) (url : string) : fetch_outcome :=
  if String.eqb url "URL_A" then Fetched (payload n)
  else if String.eqb url "URL_B" then Fetched (payload n)
  else UrlopenFails "HTTP Error 404: Not Found".

(** ["URL_A"] is not found, ["URL_B"] is served. *)
Definition serve_second (url : string) : fetch_outcome :=
  if String.eqb url "URL_B" then Fetched (payload 5000)
  else UrlopenFails "HTTP Error 404: Not Found".

(** The disk fills up after 2000 bytes of a body of 5000. *)
Definition disk_full (url : string) : fetch_outcome :=
  WriteFails (payload 5000) 2000 "[Errno 28] No space left on device".

(** The service answers every font with the JSON body [[]]. *)
Definition array_body (url : string) : string + json := inr (JArr []).

(** The service answers every font with the JSON body [{"variants": null}]. *)
Definition null_variants (url : string) : string + json :=
  inr (JObj [("variants", JNull)]).

(** An object without ['variants'], and one whose variants are all filtered
    out (an id outside the three, an empty URL, no URL at all). *)
Definition no_variants (url : string) : string + json :=
  inr (JObj [("id", JStr "demo"); ("family", JStr "Demo")]).

Definition only_filtered (url : string) : string + json :=
  inr (JObj [("id", JStr "demo");
             ("variants", JArr [variant_entry "300" "URL_C";
                                variant_entry "regular" "";
                                JObj [("id", JStr "700")]])]).

(** The code point U+D800 in UTF-8, and the answers to a font one of whose
    URLs starts with it: [Request] takes the text before the colon for the
    scheme, [urlopen] knows no such scheme, and the message names it. *)
Definition lone_surrogate : string :=
  String "237"%char (String "160"%char (String "128"%char EmptyString)).

Definition surrogate_url (url : string) : string + json :=
  inr (JObj [("variants", JArr [variant_entry "regular" (lone_surrogate ++ ":x");
                                variant_entry "700" "URL_B"])]).

Definition unknown_scheme (url : string) : fetch_outcome :=
  if String.eqb url "URL_B" then Fetched (payload 5000)
  else UrlopenFails ("<urlopen error unknown url type: " ++ lone_surrogate ++ ">").

(** A cache that holds the three files of the font ["demo"], 2000 bytes each. *)
Definition demo_cache : gmap string bytes :=
  <["/fonts/demo-400.woff2"%string := payload 2000]>
    (<["/fonts/demo-600.woff2"%string := payload 2000]>
       (<["/fonts/demo-700.woff2"%string := payload 2000]> ∅)).

(** ** Vocabulary of the properties of a whole run *)

(** The weights a file name can carry. *)
Definition canonical_weights : list string := ["400"; "600"; "700"]%string.

(** The file names a run over fonts that satisfy [ok] can come to. *)
Definition target_name (ok : string -> Prop) (filename : string) : Prop :=
  exists font_id weight,
    ok font_id /\ In weight canonical_weights /\ filename = filename_of font_id weight.

(** A line the two loops can print for fonts that satisfy [ok]. *)
Definition names_target (ok : string -> Prop) (l : line) : Prop :=
  match l with
  | PFont font_id | PMetaFail font_id _ => ok font_id
  | PExists fn | PDownloading fn | PDownloaded fn _ | PFail fn _ => target_name ok fn
  | PDone => False
  end.

Definition is_header (l : line) : bool :=
  match l with PFont _ => true | _ => false end.

(** What [fetch_metadata] lets the loops do with a font, for a backend whose
    answer does not depend on the time. *)
Definition font_passes (E : env) (font_id : string) : bool :=
  match fetch_metadata E 0 (api_url font_id) with
  | inl _ => true
  | inr data => well_shaped data
  end.

(** ** Basic facts *)

Lemma supported_iff vid : supported vid = true <-> In vid WEIGHTS.
Proof.
  unfold supported, WEIGHTS. rewrite !orb_true_iff, !String.eqb_eq. simpl.
  intuition congruence.
Qed.

Lemma cache_valid_lookup (f g : gmap string bytes) p :
  f !! p = g !! p -> cache_valid f p = cache_valid g p.
Proof. unfold cache_valid. now intros ->. Qed.

Lemma cache_valid_spec (files : gmap string bytes) p :
  cache_valid files p = true <-> exists c, files !! p = Some c /\ 1000 < length c.
Proof.
  unfold cache_valid. destruct (files !! p) as [c|].
  - rewrite Nat.ltb_lt. split; [eauto | now intros (c' & [= <-] & H)].
  - split; [discriminate | now intros (c & [=] & _)].
Qed.

Lemma cache_invalid_spec (files : gmap string bytes) p :
  cache_valid files p = false <->
  files !! p = None \/ exists c, files !! p = Some c /\ length c <= 1000.
Proof.
  unfold cache_valid. destruct (files !! p) as [c|].
  - rewrite Nat.ltb_ge. split.
    + eauto.
    + intros [[=] | (c' & [= <-] & H)]. exact H.
  - split; auto.
Qed.

Lemma process_variant_target E base font_id variant s :
  process_variant E base font_id variant s =
  match target font_id variant with
  | inl e => Uncaught e s
  | inr None => Completed s
  | inr (Some (filename, url)) =>
      let out := os_path_join base filename in
      if cache_valid (fs s) out then Completed (print (PExists filename) s)
      else download E filename out url s
  end.
Proof.
  unfold process_variant, target, py_get.
  destruct variant as [ | | | | | |members]; try reflexivity.
  destruct (dict_get members "id" (JStr "")) as [ | | | |vid| |]; try reflexivity.
  destruct (supported vid); simpl; [|reflexivity].
  destruct (truthy _); reflexivity.
Qed.

Lemma download_failure E filename out url s e left :
  failure_of (fetch_asset E (clock s) url out) = Some (e, left) ->
  download E filename out url s =
  report_failure filename e
    (after_failure out left (tick (print (PDownloading filename) s))).
Proof.
  unfold download, try_download. simpl.
  destruct (fetch_asset E (clock s) url out); simpl; intros [= <- <-]; reflexivity.
Qed.

Lemma download_fetched E filename out url s data :
  fetch_asset E (clock s) url out = Fetched data ->
  download E filename out url s =
  Completed (print (PDownloaded filename (length data / 1024))
               (write_file out data (tick (print (PDownloading filename) s)))).
Proof. unfold download, try_download. simpl. now intros ->. Qed.

Lemma download_cases E (filename : string) out url s :
  (exists e left, failure_of (fetch_asset E (clock s) url out) = Some (e, left))
  \/ (exists data, fetch_asset E (clock s) url out = Fetched data).
Proof. destruct (fetch_asset E (clock s) url out); simpl; eauto. Qed.

Lemma download_other E filename out url s p :
  p <> out -> fs (final (download E filename out url s)) !! p = fs s !! p.
Proof.
  intros Hp. destruct (download_cases E filename out url s) as [(e & left & H)|(d & H)].
  - rewrite (download_failure _ _ _ _ _ _ _ H). unfold report_failure.
    destruct (encodable e), left; simpl;
      rewrite ?lookup_insert_ne by congruence; reflexivity.
  - rewrite (download_fetched _ _ _ _ _ _ H). simpl.
    now rewrite lookup_insert_ne by congruence.
Qed.

Lemma download_clock E filename out url s :
  clock (final (download E filename out url s)) = S (clock s).
Proof.
  destruct (download_cases E filename out url s) as [(e & left & H)|(d & H)].
  - rewrite (download_failure _ _ _ _ _ _ _ H). unfold report_failure.
    destruct (encodable e), left; reflexivity.
  - now rewrite (download_fetched _ _ _ _ _ _ H).
Qed.

Lemma download_is_Some E filename out url s p :
  is_Some (fs s !! p) -> is_Some (fs (final (download E filename out url s)) !! p).
Proof.
  intros Hp. destruct (decide (p = out)) as [->|Hne];
    [|now rewrite download_other].
  destruct (download_cases E filename out url s) as [(e & left & H)|(d & H)].
  - rewrite (download_failure _ _ _ _ _ _ _ H). unfold report_failure.
    destruct (encodable e), left; simpl; rewrite ?lookup_insert_eq; eauto.
  - rewrite (download_fetched _ _ _ _ _ _ H). simpl. rewrite lookup_insert_eq. eauto.
Qed.

(** What a download adds to the output: its announcement and then nothing
    (the handler raised), a failure line, or the size of the stored file. *)
Lemma download_stdout E filename out url s :
  let r := download E filename out url s in
  exists rest, stdout (final r) = stdout s ++ PDownloading filename :: rest
    /\ ((rest = [] /\ r = Uncaught UnicodeEncodeError (final r))
        \/ (exists e, rest = [PFail filename e] /\ r = Completed (final r))
        \/ (exists data, rest = [PDownloaded filename (length data / 1024)]
                         /\ r = Completed (final r)
                         /\ fetch_asset E (clock s) url out = Fetched data
                         /\ fs (final r) !! out = Some data)).
Proof.
  simpl. destruct (download_cases E filename out url s) as [(e & left & H)|(d & H)].
  - rewrite (download_failure _ _ _ _ _ _ _ H). unfold report_failure.
    destruct (encodable e).
    + exists [PFail filename e]. split.
      * destruct left; simpl; now rewrite <- app_assoc.
      * right. left. eauto.
    + exists []. split; [destruct left; reflexivity|]. left. auto.
  - rewrite (download_fetched _ _ _ _ _ _ H). exists [PDownloaded filename (length d / 1024)].
    split; [simpl; now rewrite <- app_assoc|]. right. right.
    exists d. repeat split; [exact H|]. simpl. apply lookup_insert_eq.
Qed.

(** Over a backend whose failures can be printed, a download ends with one
    more line and the turn goes on. *)
Lemma download_printable E filename out url s :
  printable E ->
  exists s' l, download E filename out url s = Completed s'
    /\ stdout s' = stdout s ++ [PDownloading filename; l]
    /\ ((exists e, l = PFail filename e)
        \/ (exists data, l = PDownloaded filename (length data / 1024)
                         /\ fetch_asset E (clock s) url out = Fetched data
                         /\ fs s' !! out = Some data)).
Proof.
  intros HE. destruct (download_cases E filename out url s) as [(e & left & H)|(d & H)].
  - rewrite (download_failure _ _ _ _ _ _ _ H). unfold report_failure.
    rewrite (HE _ _ _ _ _ H). eexists. exists (PFail filename e).
    split; [reflexivity|]. split; [|eauto].
    destruct left; simpl; now rewrite <- app_assoc.
  - rewrite (download_fetched _ _ _ _ _ _ H). eexists.
    exists (PDownloaded filename (length d / 1024)).
    split; [reflexivity|]. split; [simpl; now rewrite <- app_assoc|].
    right. exists d. repeat split; [exact H|]. simpl. apply lookup_insert_eq.
Qed.

(** ** The loops as sequences of their turns *)

Lemma run_variants_app E base font_id pre post s :
  run_variants E base font_id (pre ++ post) s =
  and_then (run_variants E base font_id pre s) (run_variants E base font_id post).
Proof.
  revert s. induction pre as [|v pre IH]; intros s; simpl; [reflexivity|].
  destruct (process_variant E base font_id v s) as [s1|e s1]; simpl; auto.
Qed.

Lemma run_fonts_app E base pre post s :
  run_fonts E base (pre ++ post) s =
  and_then (run_fonts E base pre s) (run_fonts E base post).
Proof.
  revert s. induction pre as [|f pre IH]; intros s; simpl; [reflexivity|].
  destruct (process_font E base f s) as [s1|e s1]; simpl; auto.
Qed.

(** ** Files that pass the cache check are never written again *)

Section Keeps.
Variable E : env.
Variable base : string.

Lemma keeps_valid F s p :
  keeps F -> cache_valid (fs s) p = true -> cache_valid (fs (final (F s))) p = true.
Proof. intros HF Hv. rewrite <- Hv. apply cache_valid_lookup. now apply HF. Qed.

Lemma keeps_seq F G : keeps F -> keeps G -> keeps (seq F G).
Proof.
  intros HF HG s p Hv. unfold seq.
  pose proof (HF s p Hv) as H1. pose proof (keeps_valid F s p HF Hv) as H2.
  destruct (F s) as [s1|e s1]; simpl in *; [|exact H1].
  rewrite (HG s1 p H2). exact H1.
Qed.

Lemma keeps_process_variant font_id variant :
  keeps (process_variant E base font_id variant).
Proof.
  intros s p Hv. rewrite process_variant_target.
  destruct (target font_id variant) as [e|[[filename url]|]]; simpl; try reflexivity.
  destruct (cache_valid (fs s) (os_path_join base filename)) eqn:Hc; simpl;
    [reflexivity|].
  apply download_other. intros ->. congruence.
Qed.

Lemma keeps_run_variants font_id variants :
  keeps (run_variants E base font_id variants).
Proof.
  induction variants as [|v rest IH]; [intros s p _; reflexivity|].
  exact (keeps_seq _ _ (keeps_process_variant font_id v) IH).
Qed.

Lemma keeps_download_variants font_id data :
  keeps (download_variants E base font_id data).
Proof.
  intros s p Hv. unfold download_variants.
  destruct (py_get data "variants" (JArr [])) as [e|v]; [reflexivity|].
  destruct (py_iter v) as [e|variants]; [reflexivity|].
  now apply keeps_run_variants.
Qed.

Lemma keeps_process_font font_id : keeps (process_font E base font_id).
Proof.
  intros s p Hv. unfold process_font. simpl.
  destruct (fetch_metadata E (clock s) (api_url font_id)) as [e|data]; [reflexivity|].
  now rewrite keeps_download_variants.
Qed.

Lemma keeps_run_fonts font_ids : keeps (run_fonts E base font_ids).
Proof.
  induction font_ids as [|f rest IH]; [intros s p _; reflexivity|].
  exact (keeps_seq _ _ (keeps_process_font f) IH).
Qed.

Lemma keeps_sync font_ids : keeps (sync E base font_ids).
Proof.
  apply (keeps_seq (run_fonts E base font_ids) (fun s' => Completed (print PDone s'))).
  - apply keeps_run_fonts.
  - intros s p _. reflexivity.
Qed.
End Keeps.

(** ** Output is only ever appended *)

Section Grows.
Variable E : env.
Variable base : string.

Lemma grows_seq F G : grows F -> grows G -> grows (seq F G).
Proof.
  intros HF HG s. unfold seq. destruct (HF s) as [n1 H1].
  destruct (F s) as [s1|e s1]; simpl in *; [|eauto].
  destruct (HG s1) as [n2 H2]. exists (n1 ++ n2). now rewrite H2, H1, app_assoc.
Qed.

Lemma grows_process_variant font_id variant :
  grows (process_variant E base font_id variant).
Proof.
  intros s. rewrite process_variant_target.
  destruct (target font_id variant) as [e|[[filename url]|]]; simpl;
    try (exists []; now rewrite app_nil_r).
  destruct (cache_valid _ _); simpl; [eauto|].
  destruct (download_stdout E filename (os_path_join base filename) url s)
    as (rest & H & _).
  eauto.
Qed.

Lemma grows_run_variants font_id variants :
  grows (run_variants E base font_id variants).
Proof.
  induction variants as [|v rest IH].
  - intros s. exists []. simpl. now rewrite app_nil_r.
  - exact (grows_seq _ _ (grows_process_variant font_id v) IH).
Qed.

Lemma grows_download_variants font_id data :
  grows (download_variants E base font_id data).
Proof.
  intros s. unfold download_variants.
  destruct (py_get data "variants" (JArr [])) as [e|v];
    [exists []; simpl; now rewrite app_nil_r|].
  destruct (py_iter v) as [e|variants];
    [exists []; simpl; now rewrite app_nil_r|].
  apply grows_run_variants.
Qed.

Lemma grows_process_font font_id : grows (process_font E base font_id).
Proof.
  intros s. unfold process_font. simpl.
  destruct (fetch_metadata E (clock s) (api_url font_id)) as [e|data].
  - simpl. rewrite <- app_assoc. eauto.
  - destruct (grows_download_variants font_id data (tick (print (PFont font_id) s)))
      as [new H].
    rewrite H. simpl. rewrite <- app_assoc. eauto.
Qed.

Lemma grows_run_fonts font_ids : grows (run_fonts E base font_ids).
Proof.
  induction font_ids as [|f rest IH].
  - intros s. exists []. simpl. now rewrite app_nil_r.
  - exact (grows_seq _ _ (grows_process_font f) IH).
Qed.

Lemma grows_In F s l : grows F -> In l (stdout s) -> In l (stdout (final (F s))).
Proof. intros HF Hl. destruct (HF s) as [new ->]. apply in_or_app. now left. Qed.
End Grows.

(** ** Which runs reach the last line *)

Section Completion.
Variable E : env.
Variable base : string.
Hypothesis E_printable : printable E.

Lemma completed_process_variant font_id variant s :
  completed (process_variant E base font_id variant s) = is_dict variant.
Proof.
  rewrite process_variant_target. unfold target.
  destruct variant as [ | | | | | |members]; try reflexivity. simpl.
  destruct (dict_get members "id" (JStr "")) as [ | | | |vid| |]; try reflexivity.
  destruct (supported vid && truthy _); [|reflexivity].
  simpl. destruct (cache_valid _ _); [reflexivity|].
  destruct (download_printable E (filename_of font_id (weight_of vid))
              (os_path_join base (filename_of font_id (weight_of vid)))
              (dict_get members "woff2" (JStr "")) s E_printable) as (s' & l & -> & _).
  reflexivity.
Qed.

Lemma completed_run_variants font_id variants s :
  completed (run_variants E base font_id variants s) = forallb is_dict variants.
Proof.
  revert s. induction variants as [|v rest IH]; intros s; simpl; [reflexivity|].
  rewrite <- (completed_process_variant font_id v s).
  destruct (process_variant E base font_id v s) as [s1|e s1]; simpl; auto.
Qed.

Lemma completed_download_variants font_id data s :
  completed (download_variants E base font_id data s) = well_shaped data.
Proof.
  unfold download_variants, well_shaped, py_get.
  destruct data as [ | | | | | |members]; try reflexivity.
  destruct (py_iter _) as [e|variants]; [reflexivity|].
  apply completed_run_variants.
Qed.

Hypothesis shaped :
  forall t url data, fetch_metadata E t url = inr data -> well_shaped data = true.

Lemma completed_process_font font_id s :
  completed (process_font E base font_id s) = true.
Proof.
  unfold process_font. simpl.
  destruct (fetch_metadata E (clock s) (api_url font_id)) as [e|data] eqn:Hm;
    [reflexivity|].
  rewrite completed_download_variants. eauto.
Qed.

Lemma completed_run_fonts font_ids s :
  completed (run_fonts E base font_ids s) = true.
Proof.
  revert s. induction font_ids as [|f rest IH]; intros s; simpl; [reflexivity|].
  pose proof (completed_process_font f s) as Hf.
  destruct (process_font E base f s) as [s1|e s1]; simpl; [apply IH|discriminate].
Qed.

Lemma completed_sync font_ids s : completed (sync E base font_ids s) = true.
Proof.
  unfold sync. pose proof (completed_run_fonts font_ids s) as H.
  destruct (run_fonts E base font_ids s); [reflexivity|discriminate].
Qed.
End Completion.

(** ** Downloads are started for invalid files only *)

Section Attempts.
Variable E : env.
Variable base : string.

Lemma attempts_seq F G :
  keeps F -> attempts_invalid base F -> attempts_invalid base G ->
  attempts_invalid base (seq F G).
Proof.
  intros KF HF HG s fn Hin. unfold seq in Hin.
  pose proof (HF s fn) as HFs. pose proof (keeps_valid F s (os_path_join base fn) KF) as Kv.
  destruct (F s) as [s1|e s1]; simpl in *; [|auto].
  destruct (HG s1 fn Hin) as [H1|H1]; [auto|].
  right. destruct (cache_valid (fs s) (os_path_join base fn)); [|reflexivity].
  rewrite Kv in H1; [discriminate|reflexivity].
Qed.

Lemma attempts_process_variant font_id variant :
  attempts_invalid base (process_variant E base font_id variant).
Proof.
  intros s fn. rewrite process_variant_target.
  destruct (target font_id variant) as [e|[[filename url]|]]; simpl; auto.
  destruct (cache_valid (fs s) (os_path_join base filename)) eqn:Hc; simpl.
  - rewrite in_app_iff. simpl. intros [H|[[=]|[]]]. now left.
  - destruct (download_stdout E filename (os_path_join base filename) url s)
      as (rest & -> & Hrest).
    rewrite in_app_iff. simpl. intros [H|[[= <-]|H]]; auto.
    destruct Hrest as [[-> _]|[(e & -> & _)|(d & -> & _)]]; simpl in H;
      intuition discriminate.
Qed.

Lemma attempts_run_variants font_id variants :
  attempts_invalid base (run_variants E base font_id variants).
Proof.
  induction variants as [|v rest IH]; [intros s fn H; now left|].
  exact (attempts_seq _ _ (keeps_process_variant E base font_id v)
           (attempts_process_variant font_id v) IH).
Qed.

Lemma attempts_download_variants font_id data :
  attempts_invalid base (download_variants E base font_id data).
Proof.
  intros s fn. unfold download_variants.
  destruct (py_get data "variants" (JArr [])) as [e|v]; [now left|].
  destruct (py_iter v) as [e|variants]; [now left|].
  apply attempts_run_variants.
Qed.

Lemma attempts_process_font font_id :
  attempts_invalid base (process_font E base font_id).
Proof.
  intros s fn. unfold process_font. simpl.
  destruct (fetch_metadata E (clock s) (api_url font_id)) as [e|data].
  - simpl. rewrite !in_app_iff. simpl. intros [[H|[[=]|[]]]|[[=]|[]]]. now left.
  - intros H. apply attempts_download_variants in H. simpl in H.
    rewrite in_app_iff in H. simpl in H. destruct H as [[H|[[=]|[]]]|H]; auto.
Qed.

Lemma attempts_run_fonts font_ids :
  attempts_invalid base (run_fonts E base font_ids).
Proof.
  induction font_ids as [|f rest IH]; [intros s fn H; now left|].
  exact (attempts_seq _ _ (keeps_process_font E base f) (attempts_process_font f) IH).
Qed.

Lemma attempts_sync font_ids : attempts_invalid base (sync E base font_ids).
Proof.
  apply (attempts_seq (run_fonts E base font_ids) (fun s' => Completed (print PDone s'))).
  - apply keeps_run_fonts.
  - apply attempts_run_fonts.
  - intros s fn. simpl. rewrite in_app_iff. simpl. intros [H|[[=]|[]]]. now left.
Qed.
End Attempts.


(** ** A second run over a stable backend *)

Section Replays.
Variable E : env.
Variable base : string.
Hypothesis E_stable : stable E.
Hypothesis E_large : serves_large E.
Hypothesis E_printable : printable E.

Lemma replays_seq F G :
  keeps F -> keeps G -> grows G -> replays F -> replays G -> replays (seq F G).
Proof.
  intros KF KG GG RF RG sa sb Hset. unfold seq in *.
  assert (HsetF : settled (F sa) sb).
  { intros p Hp. apply Hset. destruct (F sa) as [sa1|e sa1]; simpl in *; [|exact Hp].
    now apply keeps_valid. }
  destruct (RF sa sb HsetF) as (Hc & HA & HB & HC).
  pose proof (fun p => keeps_valid F sb p KF) as KFb.
  destruct (F sa) as [sa1|e sa1], (F sb) as [sb1|e' sb1];
    simpl in *; try discriminate; [|auto].
  assert (HsetG : settled (G sa1) sb1) by (intros p Hp; auto).
  destruct (RG sa1 sb1 HsetG) as (Hc' & HA' & HB' & HC').
  split; [exact Hc'|]. split; [auto|]. split.
  - intros fn kb Hin. destruct (HB' fn kb Hin) as [H|H]; [|now right].
    destruct (HB fn kb H) as [H'|H']; [now left|right].
    now apply (grows_In G sb1).
  - intros fn Hin. destruct (HC' fn Hin) as [H|H]; [|now right].
    destruct (HC fn H) as [H'|[e H']]; [now left|right].
    exists e. now apply (grows_In G sa1).
Qed.

Lemma replays_process_variant font_id variant :
  replays (process_variant E base font_id variant).
Proof.
  intros sa sb. rewrite !process_variant_target.
  destruct (target font_id variant) as [e|[[filename url]|]]; simpl; auto.
  set (out := os_path_join base filename).
  destruct (download_printable E filename out url sa E_printable)
    as (sa' & la & Hda & Hsa & Hla).
  destruct (download_printable E filename out url sb E_printable)
    as (sb' & lb & Hdb & Hsb & Hlb).
  rewrite Hda, Hdb. intros Hset.
  assert (Hfetched : forall data,
             fetch_asset E (clock sa) url out = Fetched data ->
             cache_valid (fs sa) out = false -> cache_valid (fs sb) out = true).
  { intros data Hf Hc. apply Hset. rewrite Hc. simpl.
    apply cache_valid_spec. exists data. split; [|now apply (E_large _ _ _ _ Hf)].
    rewrite (download_fetched _ _ _ _ _ _ Hf) in Hda. injection Hda as <-.
    simpl. apply lookup_insert_eq. }
  destruct (cache_valid (fs sb) out) eqn:Hb; simpl.
  - (* second run: the file is there *)
    split; [now destruct (cache_valid (fs sa) out)|]. split; [|split].
    + intros fn kb. rewrite in_app_iff. simpl. intros [H|[[=]|[]]]. exact H.
    + intros fn kb. destruct (cache_valid (fs sa) out); simpl.
      * rewrite in_app_iff. simpl. intros [H|[[=]|[]]]. now left.
      * rewrite Hsa, in_app_iff. simpl. intros [H|[[=]|[H|[]]]]; [now left|].
        right. destruct Hla as [(e & ->)|(d & -> & _)]; [discriminate|].
        injection H as <- _. rewrite in_app_iff. simpl. auto.
    + intros fn. rewrite in_app_iff. simpl. intros [H|[[=]|[]]]. now left.
  - (* second run: the file is missing or short, so it was in the first *)
    assert (Ha : cache_valid (fs sa) out = false).
    { destruct (cache_valid (fs sa) out) eqn:Ha; [|reflexivity].
      specialize (Hset out). simpl in Hset.
      rewrite (Hset Ha) in Hb. discriminate. }
    rewrite Ha in *. simpl. split; [reflexivity|]. split; [|split].
    + intros fn kb. rewrite Hsb, in_app_iff. simpl. intros [H|[[=]|[H|[]]]]; [exact H|].
      exfalso. destruct Hlb as [(e & ->)|(d & -> & Hd & _)]; [discriminate|].
      destruct E_stable as [_ Hst]. rewrite (Hst _ (clock sa)) in Hd.
      discriminate (Hfetched d Hd eq_refl).
    + intros fn kb. rewrite Hsa, in_app_iff. simpl. intros [H|[[=]|[H|[]]]]; [now left|].
      exfalso. destruct Hla as [(e & ->)|(d & -> & Hd & _)]; [discriminate|].
      discriminate (Hfetched d Hd eq_refl).
    + intros fn. rewrite Hsb, in_app_iff. simpl. intros [H|[[= <-]|[H|[]]]]; [now left| |].
      * right. destruct Hla as [(e & ->)|(d & -> & Hd & _)].
        -- exists e. rewrite Hsa, in_app_iff. simpl. auto.
        -- discriminate (Hfetched d Hd eq_refl).
      * destruct Hlb as [(e & ->)|(d & -> & _)]; discriminate.
Qed.

Lemma replays_run_variants font_id variants :
  replays (run_variants E base font_id variants).
Proof.
  induction variants as [|v rest IH]; [intros sa sb _; simpl; auto|].
  exact (replays_seq _ _ (keeps_process_variant E base font_id v)
           (keeps_run_variants E base font_id rest)
           (grows_run_variants E base font_id rest)
           (replays_process_variant font_id v) IH).
Qed.

Lemma replays_download_variants font_id data :
  replays (download_variants E base font_id data).
Proof.
  intros sa sb. unfold download_variants.
  destruct (py_get data "variants" (JArr [])) as [e|v]; [simpl; auto|].
  destruct (py_iter v) as [e|variants]; [simpl; auto|].
  apply replays_run_variants.
Qed.

Lemma replays_process_font font_id : replays (process_font E base font_id).
Proof.
  intros sa sb. unfold process_font. simpl.
  destruct E_stable as [Hst _]. rewrite (Hst (clock sb) (clock sa)).
  destruct (fetch_metadata E (clock sa) (api_url font_id)) as [e|data].
  - intros _. simpl. split; [reflexivity|].
    repeat split; intros fn; intros; rewrite !in_app_iff in *; simpl in *;
      intuition discriminate.
  - intros Hset.
    destruct (replays_download_variants font_id data
                (tick (print (PFont font_id) sa)) (tick (print (PFont font_id) sb)) Hset)
      as (Hc & HA & HB & HC).
    split; [exact Hc|]. split; [|split].
    + intros fn kb Hin. specialize (HA fn kb Hin). simpl in HA.
      rewrite in_app_iff in HA. simpl in HA. intuition discriminate.
    + intros fn kb Hin. destruct (HB fn kb Hin) as [H|H]; [|now right].
      simpl in H. rewrite in_app_iff in H. simpl in H. intuition discriminate.
    + intros fn Hin. destruct (HC fn Hin) as [H|H]; [|now right].
      simpl in H. rewrite in_app_iff in H. simpl in H. intuition discriminate.
Qed.

Lemma replays_run_fonts font_ids : replays (run_fonts E base font_ids).
Proof.
  induction font_ids as [|f rest IH]; [intros sa sb _; simpl; auto|].
  exact (replays_seq _ _ (keeps_process_font E base f) (keeps_run_fonts E base rest)
           (grows_run_fonts E base rest) (replays_process_font f) IH).
Qed.

Lemma replays_sync font_ids : replays (sync E base font_ids).
Proof.
  apply (replays_seq (run_fonts E base font_ids) (fun s' => Completed (print PDone s'))).
  - apply keeps_run_fonts.
  - intros s p _. reflexivity.
  - intros s. simpl. eauto.
  - apply replays_run_fonts.
  - intros sa sb _. simpl. split; [reflexivity|].
    repeat split; intros fn; intros; rewrite !in_app_iff in *; simpl in *;
      intuition discriminate.
Qed.
End Replays.


(** ** Facts about the concrete backends *)

Lemma mock_stable meta asset : stable (mock meta asset).
Proof. split; reflexivity. Qed.

Lemma payload_length n : length (payload n) = n.
Proof. apply repeat_length. Qed.

Lemma serve_large n : 1000 < n -> serves_large (mock two_variants (serve n)).
Proof.
  intros Hn t url out data. simpl. destruct url as [ | | | |u| |]; try discriminate.
  unfold serve. destruct (String.eqb u "URL_A"); [|destruct (String.eqb u "URL_B")];
    try discriminate; intros [= <-]; now rewrite payload_length.
Qed.

Lemma mock_printable meta asset :
  (forall u e left, failure_of (asset u) = Some (e, left) -> encodable e = true) ->
  printable (mock meta asset).
Proof.
  intros H t url out e left. simpl. destruct url; try apply H.
  all: intros [= <- _]; reflexivity.
Qed.

Lemma serve_printable meta n : printable (mock meta (serve n)).
Proof.
  apply mock_printable. intros u e left. unfold serve.
  destruct (String.eqb u "URL_A"); [discriminate|].
  destruct (String.eqb u "URL_B"); [discriminate|].
  intros [= <- _]. reflexivity.
Qed.

Lemma serve_second_printable meta : printable (mock meta serve_second).
Proof.
  apply mock_printable. intros u e left. unfold serve_second.
  destruct (String.eqb u "URL_B"); [discriminate|].
  intros [= <- _]. reflexivity.
Qed.

Lemma two_variants_shaped asset t url data :
  fetch_metadata (mock two_variants asset) t url = inr data -> well_shaped data = true.
Proof.
  simpl. unfold two_variants. destruct (String.eqb url (api_url "alpha")); [discriminate|].
  now intros [= <-].
Qed.

Lemma run_variants_filtered E base font_id variants s :
  forallb (filtered_out font_id) variants = true ->
  run_variants E base font_id variants s = Completed s.
Proof.
  induction variants as [|v rest IH]; simpl; [reflexivity|].
  rewrite andb_true_iff. intros [Hv Hrest].
  rewrite process_variant_target. unfold filtered_out in Hv.
  destruct (target font_id v) as [e|[[filename url]|]]; try discriminate.
  simpl. auto.
Qed.

(** ** The cache check (C1) *)

(** C1, as the claim states it, fails: a cached file of exactly 1000 bytes is
    at the threshold, yet the check [getsize(out) > 1000] rejects it and the
    turn of the loop fetches the asset and overwrites the file. *)
Lemma file_at_threshold_is_overwritten :
  ~ (forall E base font_id variant s out c,
        fs s !! out = Some c -> 1000 <= length c ->
        fs (final (process_variant E base font_id variant s)) !! out = Some c).
Proof.
  intros H.
  specialize (H (mock two_variants (serve 2000)) "/fonts"%string "demo"%string
                (variant_entry "regular" "URL_A")
                (fresh {[ "/fonts/demo-400.woff2"%string := payload 1000 ]} 0)
                "/fonts/demo-400.woff2"%string (payload 1000)).
  assert (Hlen : length (payload 1000) = 1000) by apply payload_length.
  specialize (H eq_refl ltac:(rewrite Hlen; lia)).
  apply (f_equal (fmap (length (A:=Byte.byte)))) in H.
  vm_compute in H. discriminate H.
Qed.

(** C1 (amended): for a variant that is not filtered out, the turn of the
    loop is a download (lines 55 to 63) if and only if the target file is absent or holds
    at most 1000 bytes, and reports it present (touching nothing) if and only
    if it holds more than 1000 bytes; over a whole run, a file of more than
    1000 bytes keeps its content and no download is started for it. *)
Theorem refetch_iff_absent_or_at_most_1000 E base font_id members vid s :
  dict_get members "id" (JStr "") = JStr vid ->
  supported vid = true ->
  truthy (dict_get members "woff2" (JStr "")) = true ->
  let url := dict_get members "woff2" (JStr "") in
  let filename := filename_of font_id (weight_of vid) in
  let out := os_path_join base filename in
  let r := process_variant E base font_id (JObj members) s in
  (r = download E filename out url s
     <-> fs s !! out = None \/ exists c, fs s !! out = Some c /\ length c <= 1000)
  /\ (r = Completed (print (PExists filename) s)
     <-> exists c, fs s !! out = Some c /\ 1000 < length c)
  /\ (forall font_ids s0 c,
        fs s0 !! out = Some c -> 1000 < length c ->
        let r0 := sync E base font_ids s0 in
        fs (final r0) !! out = Some c
        /\ (In (PDownloading filename) (stdout (final r0)) ->
            In (PDownloading filename) (stdout s0))).
Proof.
  intros Hid Hsup Hurl url filename out r.
  assert (Hr : r = if cache_valid (fs s) out
                   then Completed (print (PExists filename) s)
                   else download E filename out url s).
  { subst r. rewrite process_variant_target. unfold target.
    rewrite Hid, Hsup, Hurl. reflexivity. }
  assert (Hne : Completed (print (PExists filename) s)
                <> download E filename out url s).
  { intros Heq. apply (f_equal (fun a => clock (final a))) in Heq.
    rewrite download_clock in Heq. simpl in Heq. lia. }
  split; [|split].
  - rewrite <- cache_invalid_spec, Hr.
    destruct (cache_valid (fs s) out); split; congruence.
  - rewrite <- cache_valid_spec, Hr.
    destruct (cache_valid (fs s) out); split; congruence.
  - intros font_ids s0 c Hc Hlen r0.
    assert (Hv : cache_valid (fs s0) out = true) by (apply cache_valid_spec; eauto).
    split.
    + subst r0. rewrite (keeps_sync E base font_ids s0 out Hv). exact Hc.
    + intros Hin. destruct (attempts_sync E base font_ids s0 filename Hin) as [H|H];
        [exact H|]. fold out in H. congruence.
Qed.

(** The amended C1 at a cached file of 5000 bytes. *)
Lemma refetch_iff_absent_or_at_most_1000_witness :
  let E := mock two_variants (serve 2000) in
  let s := fresh {[ "/fonts/demo-400.woff2"%string := payload 5000 ]} 0 in
  let out := os_path_join "/fonts" (filename_of "demo" (weight_of "regular")) in
  let r := process_variant E "/fonts" "demo" (variant_entry "regular" "URL_A") s in
  (r = download E "demo-400.woff2" out (JStr "URL_A") s
     <-> fs s !! out = None \/ exists c, fs s !! out = Some c /\ length c <= 1000)
  /\ (r = Completed (print (PExists "demo-400.woff2") s)
     <-> exists c, fs s !! out = Some c /\ 1000 < length c)
  /\ (forall font_ids s0 c,
        fs s0 !! out = Some c -> 1000 < length c ->
        let r0 := sync E "/fonts" font_ids s0 in
        fs (final r0) !! out = Some c
        /\ (In (PDownloading "demo-400.woff2") (stdout (final r0)) ->
            In (PDownloading "demo-400.woff2") (stdout s0))).
Proof.
  exact (refetch_iff_absent_or_at_most_1000
           (mock two_variants (serve 2000)) "/fonts" "demo"
           [("id", JStr "regular"); ("woff2", JStr "URL_A")] "regular"
           (fresh {[ "/fonts/demo-400.woff2"%string := payload 5000 ]} 0)
           eq_refl eq_refl eq_refl).
Defined.

(** ** Idempotence (C2) *)

(** C2, as the claim states it, fails: a stable backend whose bodies are 500
    bytes long makes the second run download every file again, because what
    the first run stored does not pass the cache check. *)
Lemma second_run_downloads_small_files_again :
  ~ (forall E base font_ids files t1 t2,
        stable E ->
        let r1 := sync E base font_ids (fresh files t1) in
        let r2 := sync E base font_ids (fresh (fs (final r1)) t2) in
        (forall fn kb, ~ In (PDownloaded fn kb) (stdout (final r2)))
        /\ (forall fn kb, In (PDownloaded fn kb) (stdout (final r1)) ->
                          In (PExists fn) (stdout (final r2)))).
Proof.
  intros H.
  destruct (H (mock two_variants (serve 500)) "/fonts"%string ["demo"%string] ∅ 0 0
              (mock_stable _ _)) as [Hnone _].
  apply (Hnone "demo-400.woff2"%string 0).
  vm_compute. auto 10.
Qed.

(** Without the condition on the messages the amended C2 would fail too: a
    first run that dies in the handler of line 63 has printed no failure
    line for the file that the second run asks for again. *)
Lemma second_run_repeats_an_unreported_failure :
  let E := mock surrogate_url unknown_scheme in
  let r1 := sync E "/fonts" ["gamma"]%string (fresh ∅ 0) in
  let r2 := sync E "/fonts" ["gamma"]%string (fresh (fs (final r1)) 0) in
  stable E /\ serves_large E
  /\ In (PDownloading "gamma-400.woff2") (stdout (final r2))
  /\ ~ exists e, In (PFail "gamma-400.woff2" e) (stdout (final r1)).
Proof.
  split; [apply mock_stable|]. split.
  - intros t url out data. simpl. destruct url as [ | | | |u| |]; try discriminate.
    unfold unknown_scheme. destruct (String.eqb u "URL_B"); [|discriminate].
    intros [= <-]. rewrite payload_length. lia.
  - split; [vm_compute; auto|]. intros [e He]. vm_compute in He.
    intuition discriminate.
Qed.

(** C2 (amended): over a stable backend whose asset bodies are all longer
    than 1000 bytes and whose failure messages can be printed, a second run
    from the files the first run left downloads nothing, reports present
    every file the first run downloaded, asks again only for files whose
    download failed in the first run, and stops where the first run
    stopped. *)
Theorem second_run_downloads_nothing E base font_ids files t1 t2 :
  stable E -> serves_large E -> printable E ->
  let r1 := sync E base font_ids (fresh files t1) in
  let r2 := sync E base font_ids (fresh (fs (final r1)) t2) in
  (forall fn kb, ~ In (PDownloaded fn kb) (stdout (final r2)))
  /\ (forall fn kb, In (PDownloaded fn kb) (stdout (final r1)) ->
                    In (PExists fn) (stdout (final r2)))
  /\ (forall fn, In (PDownloading fn) (stdout (final r2)) ->
                 exists e, In (PFail fn e) (stdout (final r1)))
  /\ completed r2 = completed r1.
Proof.
  intros Hst Hlarge Hprint r1 r2.
  assert (Hset : settled r1 (fresh (fs (final r1)) t2)) by (intros p Hp; exact Hp).
  destruct (replays_sync E base Hst Hlarge Hprint font_ids (fresh files t1)
              (fresh (fs (final r1)) t2) Hset) as (Hc & HA & HB & HC).
  fold r1 in Hc, HB, HC. fold r2 in Hc, HA, HB, HC.
  repeat split.
  - intros fn kb Hin. exact (HA fn kb Hin).
  - intros fn kb Hin. destruct (HB fn kb Hin) as [[]|H]. exact H.
  - intros fn Hin. destruct (HC fn Hin) as [[]|H]. exact H.
  - exact Hc.
Qed.

(** The amended C2 over a backend that serves bodies of 5000 bytes. *)
Lemma second_run_downloads_nothing_witness :
  let E := mock two_variants (serve 5000) in
  let r1 := sync E "/fonts" ["alpha"; "demo"]%string (fresh ∅ 0) in
  let r2 := sync E "/fonts" ["alpha"; "demo"]%string (fresh (fs (final r1)) 0) in
  (forall fn kb, ~ In (PDownloaded fn kb) (stdout (final r2)))
  /\ (forall fn kb, In (PDownloaded fn kb) (stdout (final r1)) ->
                    In (PExists fn) (stdout (final r2)))
  /\ (forall fn, In (PDownloading fn) (stdout (final r2)) ->
                 exists e, In (PFail fn e) (stdout (final r1)))
  /\ completed r2 = completed r1.
Proof.
  apply (second_run_downloads_nothing (mock two_variants (serve 5000)) "/fonts"
           ["alpha"; "demo"]%string ∅ 0 0).
  - apply mock_stable.
  - apply serve_large. lia.
  - apply serve_printable.
Defined.


(** ** Weights and file names (C3) *)

(** C3: the three supported variant ids give the weights 400, 600 and 700
    and the file names [{font_id}-{weight}.woff2]. *)
Theorem weight_normalization font_id :
  forallb supported WEIGHTS = true
  /\ map weight_of WEIGHTS = ["400"; "600"; "700"]%string
  /\ map (fun vid => filename_of font_id (weight_of vid)) WEIGHTS
     = [font_id ++ "-400.woff2"; font_id ++ "-600.woff2"; font_id ++ "-700.woff2"]%string
  /\ map (fun vid => target font_id (variant_entry vid "URL_A")) WEIGHTS
     = [inr (Some (font_id ++ "-400.woff2", JStr "URL_A"));
        inr (Some (font_id ++ "-600.woff2", JStr "URL_A"));
        inr (Some (font_id ++ "-700.woff2", JStr "URL_A"))]%string.
Proof. repeat split. Qed.

(** ** Failures of one font or one variant (C4, C5, C9) *)

(** C4: when the metadata request of a font fails, the font gets its header
    and one failure line, no file changes, and the fonts after it are
    processed from that state as in any other run. *)
Theorem resolve_error_skips_one_font E base pre font_id post s s1 e :
  run_fonts E base pre s = Completed s1 ->
  fetch_metadata E (clock s1) (api_url font_id) = inl e ->
  let s2 := {| fs := fs s1; clock := S (clock s1);
               stdout := stdout s1 ++ [PFont font_id; PMetaFail font_id e] |} in
  process_font E base font_id s1 = Completed s2
  /\ run_fonts E base (pre ++ font_id :: post) s = run_fonts E base post s2
  /\ sync E base (pre ++ font_id :: post) s = sync E base post s2.
Proof.
  intros Hpre Hmeta s2.
  assert (Hfont : process_font E base font_id s1 = Completed s2).
  { unfold process_font. simpl. rewrite Hmeta. unfold print, tick. simpl.
    now rewrite <- app_assoc. }
  assert (Hrun : run_fonts E base (pre ++ font_id :: post) s = run_fonts E base post s2).
  { rewrite run_fonts_app, Hpre. simpl. now rewrite Hfont. }
  repeat split; [exact Hfont|exact Hrun|].
  unfold sync. now rewrite Hrun.
Qed.

(** C4 at the batch [alpha; demo], where the service answers 500 for alpha. *)
Lemma resolve_error_skips_one_font_witness :
  let E := mock two_variants (serve 5000) in
  let s2 := {| fs := ∅; clock := 1;
               stdout := [PFont "alpha";
                          PMetaFail "alpha" "HTTP Error 500: Internal Server Error"] |} in
  process_font E "/fonts" "alpha" (fresh ∅ 0) = Completed s2
  /\ run_fonts E "/fonts" ["alpha"; "demo"]%string (fresh ∅ 0)
     = run_fonts E "/fonts" ["demo"]%string s2
  /\ sync E "/fonts" ["alpha"; "demo"]%string (fresh ∅ 0)
     = sync E "/fonts" ["demo"]%string s2.
Proof.
  exact (resolve_error_skips_one_font (mock two_variants (serve 5000)) "/fonts"
           [] "alpha" ["demo"%string] (fresh ∅ 0) (fresh ∅ 0)
           "HTTP Error 500: Internal Server Error" eq_refl eq_refl).
Defined.

(** C5 fails on the code: the handler of a failed download prints the
    message of the exception (line 63) outside of every [try].  A URL whose
    scheme holds a surrogate makes [urlopen] raise an error whose message
    repeats it; the print raises, the bold variant of the same font (which
    the backend serves) is not attempted, the next font is not processed and
    the exit status is 1. *)
Theorem unprintable_failure_ends_the_run :
  let E := mock surrogate_url unknown_scheme in
  let s1 := {| fs := ∅; clock := 1; stdout := [PFont "gamma"] |} in
  let dead := {| fs := ∅; clock := 2;
                 stdout := [PFont "gamma"; PDownloading "gamma-400.woff2"] |} in
  process_variant E "/fonts" "gamma"
    (variant_entry "regular" (lone_surrogate ++ ":x")) s1
  = Uncaught UnicodeEncodeError dead
  /\ sync E "/fonts" ["gamma"; "demo"]%string (fresh ∅ 0)
     = Uncaught UnicodeEncodeError dead
  /\ exit_status (sync E "/fonts" ["gamma"; "demo"]%string (fresh ∅ 0)) = 1%Z
  /\ process_variant E "/fonts" "gamma" (variant_entry "700" "URL_B") s1
     = Completed {| fs := {[ "/fonts/gamma-700.woff2"%string := payload 5000 ]};
                    clock := 2;
                    stdout := [PFont "gamma"; PDownloading "gamma-700.woff2";
                               PDownloaded "gamma-700.woff2" 4] |}.
Proof. repeat split. Qed.

(** C9: a font whose metadata request fails leaves every file as it was. *)
Theorem metadata_failure_writes_nothing E base font_id s e :
  fetch_metadata E (clock s) (api_url font_id) = inl e ->
  fs (final (process_font E base font_id s)) = fs s
  /\ stdout (final (process_font E base font_id s))
     = stdout s ++ [PFont font_id; PMetaFail font_id e]
  /\ completed (process_font E base font_id s) = true.
Proof.
  intros Hmeta. unfold process_font. simpl. rewrite Hmeta. simpl.
  now rewrite <- app_assoc.
Qed.

(** C9 at a cache that already holds a file of the failing font. *)
Lemma metadata_failure_writes_nothing_witness :
  let E := mock two_variants (serve 5000) in
  let s := fresh {[ "/fonts/alpha-400.woff2"%string := payload 500 ]} 0 in
  fs (final (process_font E "/fonts" "alpha" s)) = fs s
  /\ stdout (final (process_font E "/fonts" "alpha" s))
     = stdout s ++ [PFont "alpha"; PMetaFail "alpha" "HTTP Error 500: Internal Server Error"]
  /\ completed (process_font E "/fonts" "alpha" s) = true.
Proof.
  exact (metadata_failure_writes_nothing (mock two_variants (serve 5000)) "/fonts" "alpha"
           (fresh {[ "/fonts/alpha-400.woff2"%string := payload 500 ]} 0)
           "HTTP Error 500: Internal Server Error" eq_refl).
Defined.

(** ** Completion and exit status (C6, C7) *)

(** C6 fails on the code: a metadata body that is valid JSON but not an
    object ([[]]), or whose ['variants'] is [null], raises outside of both
    [try] blocks.  The run dies at the first font with exit status 1; the
    eleven other fonts are not processed and the last line is not printed. *)
Theorem main_dies_on_unexpected_json :
  main (mock array_body (serve 5000)) "/fonts" (fresh ∅ 0)
  = Uncaught AttributeError {| fs := ∅; clock := 1; stdout := [PFont "montserrat"] |}
  /\ main (mock null_variants (serve 5000)) "/fonts" (fresh ∅ 0)
     = Uncaught TypeError {| fs := ∅; clock := 1; stdout := [PFont "montserrat"] |}
  /\ exit_status (main (mock array_body (serve 5000)) "/fonts" (fresh ∅ 0)) = 1%Z
  /\ ~ In PDone (stdout (final (main (mock array_body (serve 5000)) "/fonts" (fresh ∅ 0)))).
Proof.
  repeat split. vm_compute. intros [[=]|[]].
Qed.

(** C7, as the claim states it, fails: when the regular file of a font
    answers 404, the item is reported failed and the exit status is still
    zero. *)
Lemma exit_status_zero_despite_failures :
  ~ (forall E base font_ids files,
        let r := sync E base font_ids (fresh files 0) in
        exit_status r <> 0%Z <-> existsb failed_line (stdout (final r)) = true).
Proof.
  intros H.
  destruct (H (mock two_variants serve_second) "/fonts"%string ["demo"%string] ∅)
    as [_ Hfail].
  apply Hfail; reflexivity.
Qed.

(** C7 (amended): the exit status is zero whenever every metadata body that
    was parsed has the shape the loops expect and every message of a failed
    download can be printed, whether or not a font or a variant failed. *)
Theorem exit_status_zero_when_shaped E base font_ids s :
  (forall t url data, fetch_metadata E t url = inr data -> well_shaped data = true) ->
  printable E ->
  exit_status (sync E base font_ids s) = 0%Z.
Proof.
  intros Hshaped Hprint.
  pose proof (completed_sync E base Hprint Hshaped font_ids s) as Hc.
  destruct (sync E base font_ids s); [reflexivity|discriminate].
Qed.

(** The amended C7 at a run in which one font and one variant fail. *)
Lemma exit_status_zero_when_shaped_witness :
  let r := sync (mock two_variants serve_second) "/fonts" ["alpha"; "demo"]%string
                (fresh ∅ 0) in
  existsb failed_line (stdout (final r)) = true /\ exit_status r = 0%Z.
Proof.
  split; [reflexivity|].
  apply (exit_status_zero_when_shaped (mock two_variants serve_second) "/fonts"
           ["alpha"; "demo"]%string (fresh ∅ 0)).
  - exact (two_variants_shaped serve_second).
  - apply serve_second_printable.
Defined.

(** ** Writes in place (C8) *)

(** C8, as the claim states it, fails: the body is written into the target
    file itself, so a write that stops after 2000 of 5000 bytes leaves an
    incomplete file that passes the cache check. *)
Lemma partial_write_passes_cache_check :
  ~ (forall E filename out url s data k e,
        fetch_asset E (clock s) url out = WriteFails data k e ->
        k < length data ->
        cache_valid (fs (final (download E filename out url s))) out = false).
Proof.
  intros H.
  assert (Hlen : 2000 < length (payload 5000)) by (rewrite payload_length; lia).
  specialize (H (mock two_variants disk_full) "demo-400.woff2"%string
                "/fonts/demo-400.woff2"%string (JStr "URL_A") (fresh ∅ 0)
                (payload 5000) 2000 "[Errno 28] No space left on device"%string
                eq_refl Hlen).
  vm_compute in H. discriminate H.
Qed.

(** C8 (amended): a write that stops after [k] bytes of the body leaves
    exactly those [k] bytes in the target file; the partial file passes the
    cache check if and only if [k] is more than 1000, and a body that could
    not be read at all leaves an empty file, which does not pass. *)
Theorem partial_write_valid_iff E filename out url s data k e :
  fetch_asset E (clock s) url out = WriteFails data k e ->
  k < length data ->
  let s' := final (download E filename out url s) in
  fs s' !! out = Some (take k data)
  /\ (cache_valid (fs s') out = true <-> 1000 < k)
  /\ (forall E' e', fetch_asset E' (clock s) url out = ReadFails e' ->
        fs (final (download E' filename out url s)) !! out = Some []
        /\ cache_valid (fs (final (download E' filename out url s))) out = false).
Proof.
  intros Ho Hk s'.
  assert (Hleft : forall E0 e0 content,
             failure_of (fetch_asset E0 (clock s) url out) = Some (e0, Some content) ->
             fs (final (download E0 filename out url s)) !! out = Some content).
  { intros E0 e0 content H0. rewrite (download_failure _ _ _ _ _ _ _ H0).
    unfold report_failure. destruct (encodable e0); simpl; apply lookup_insert_eq. }
  assert (Hfs : fs s' !! out = Some (take k data)).
  { apply (Hleft E e). now rewrite Ho. }
  split; [exact Hfs|]. split.
  - unfold cache_valid. rewrite Hfs, Nat.ltb_lt, length_take. lia.
  - intros E' e' Ho'. unfold cache_valid.
    rewrite (Hleft E' e' []) by now rewrite Ho'. auto.
Qed.

(** The amended C8 at a write that stops after 2000 of 5000 bytes. *)
Lemma partial_write_valid_iff_witness :
  let s' := final (download (mock two_variants disk_full) "demo-400.woff2"
                            "/fonts/demo-400.woff2" (JStr "URL_A") (fresh ∅ 0)) in
  fs s' !! "/fonts/demo-400.woff2"%string = Some (take 2000 (payload 5000))
  /\ (cache_valid (fs s') "/fonts/demo-400.woff2" = true <-> 1000 < 2000)
  /\ (forall E' e',
        fetch_asset E' 0 (JStr "URL_A") "/fonts/demo-400.woff2" = ReadFails e' ->
        fs (final (download E' "demo-400.woff2" "/fonts/demo-400.woff2"
                            (JStr "URL_A") (fresh ∅ 0)))
          !! "/fonts/demo-400.woff2"%string = Some []
        /\ cache_valid (fs (final (download E' "demo-400.woff2" "/fonts/demo-400.woff2"
                                            (JStr "URL_A") (fresh ∅ 0))))
                       "/fonts/demo-400.woff2" = false).
Proof.
  apply (partial_write_valid_iff (mock two_variants disk_full) "demo-400.woff2"
           "/fonts/demo-400.woff2" (JStr "URL_A") (fresh ∅ 0) (payload 5000) 2000
           "[Errno 28] No space left on device" eq_refl).
  rewrite payload_length. lia.
Defined.

(** ** Metadata without variants (C10) *)

(** C10, as the claim states it, fails: the body [[]] parses as JSON and
    has no ['variants'] field, but [data.get] is not a method of a list and
    the run dies instead of going on to the next font. *)
Lemma body_without_fields_ends_the_run :
  ~ (forall E base font_id s data,
        fetch_metadata E (clock s) (api_url font_id) = inr data ->
        has_field data "variants" = false ->
        process_font E base font_id s
        = Completed {| fs := fs s; clock := S (clock s);
                       stdout := stdout s ++ [PFont font_id] |}).
Proof.
  intros H.
  specialize (H (mock array_body (serve 5000)) "/fonts"%string "demo"%string
                (fresh ∅ 0) (JArr []) eq_refl eq_refl).
  discriminate H.
Qed.

(** C10 (amended): a metadata object without a ['variants'] member is processed as a
    font with no variant: the header of the font is all that is printed, no
    file changes and no request is made, exactly as for a font all of whose
    variants are filtered out. *)
Theorem missing_variants_is_empty E E' base font_id members members' variants s :
  fetch_metadata E (clock s) (api_url font_id) = inr (JObj members) ->
  dict_lookup members "variants" = None ->
  fetch_metadata E' (clock s) (api_url font_id) = inr (JObj members') ->
  dict_lookup members' "variants" = Some (JArr variants) ->
  forallb (filtered_out font_id) variants = true ->
  let s' := {| fs := fs s; clock := S (clock s); stdout := stdout s ++ [PFont font_id] |} in
  process_font E base font_id s = Completed s'
  /\ process_font E' base font_id s = Completed s'.
Proof.
  intros Hm Hnone Hm' Hsome Hfilt s'.
  unfold process_font, download_variants, py_get, dict_get. simpl.
  rewrite Hm, Hm', Hnone, Hsome. simpl.
  rewrite run_variants_filtered by exact Hfilt. split; reflexivity.
Qed.

(** C10 at the objects [no_variants] and [only_filtered]. *)
Lemma missing_variants_is_empty_witness :
  let s' := {| fs := ∅; clock := 1; stdout := [PFont "demo"] |} in
  process_font (mock no_variants (serve 5000)) "/fonts" "demo" (fresh ∅ 0) = Completed s'
  /\ process_font (mock only_filtered (serve 5000)) "/fonts" "demo" (fresh ∅ 0)
     = Completed s'.
Proof.
  exact (missing_variants_is_empty (mock no_variants (serve 5000))
           (mock only_filtered (serve 5000)) "/fonts" "demo"
           [("id", JStr "demo"); ("family", JStr "Demo")]
           [("id", JStr "demo");
            ("variants", JArr [variant_entry "300" "URL_C";
                               variant_entry "regular" "";
                               JObj [("id", JStr "700")]])]
           [variant_entry "300" "URL_C"; variant_entry "regular" "";
            JObj [("id", JStr "700")]]
           (fresh ∅ 0) eq_refl eq_refl eq_refl eq_refl eq_refl).
Defined.


(** ** Lifting a relation between states over the loops *)

Lemma target_name_of ok font_id variant filename url :
  target font_id variant = inr (Some (filename, url)) -> ok font_id ->
  target_name ok filename.
Proof.
  unfold target. destruct variant as [ | | | | | |members]; try discriminate.
  destruct (dict_get members "id" (JStr "")) as [ | | | |vid| |]; try discriminate.
  destruct (supported vid) eqn:Hsup; simpl; [|discriminate].
  destruct (truthy _); [|discriminate]. intros [= <- _] Hok.
  exists font_id, (weight_of vid). repeat split; [exact Hok|].
  apply supported_iff in Hsup. unfold WEIGHTS in Hsup. simpl in Hsup.
  destruct Hsup as [<-|[<-|[<-|[]]]]; simpl; auto.
Qed.

Section Lift.
Variable E : env.
Variable base : string.
Variable ok : string -> Prop.
Variable R : state -> state -> Prop.
Hypothesis R_refl : forall s, R s s.
Hypothesis R_trans : forall a b c, R a b -> R b c -> R a c.
Hypothesis R_variant :
  forall font_id variant s, ok font_id ->
    R s (final (process_variant E base font_id variant s)).
Hypothesis R_header : forall font_id s, ok font_id -> R s (tick (print (PFont font_id) s)).
Hypothesis R_metafail : forall font_id e s, ok font_id -> R s (print (PMetaFail font_id e) s).
Hypothesis R_done : forall s, R s (print PDone s).

Lemma lift_run_variants font_id variants s :
  ok font_id -> R s (final (run_variants E base font_id variants s)).
Proof.
  intros Hok. revert s. induction variants as [|v rest IH]; intros s; simpl; [apply R_refl|].
  pose proof (R_variant font_id v s Hok) as Hv.
  destruct (process_variant E base font_id v s) as [s1|e s1]; simpl in *; [|exact Hv].
  exact (R_trans _ _ _ Hv (IH s1)).
Qed.

Lemma lift_download_variants font_id data s :
  ok font_id -> R s (final (download_variants E base font_id data s)).
Proof.
  intros Hok. unfold download_variants.
  destruct (py_get data "variants" (JArr [])) as [e|v]; [apply R_refl|].
  destruct (py_iter v) as [e|variants]; [apply R_refl|].
  now apply lift_run_variants.
Qed.

Lemma lift_process_font font_id s :
  ok font_id -> R s (final (process_font E base font_id s)).
Proof.
  intros Hok. unfold process_font. simpl.
  pose proof (R_header font_id s Hok) as Hh.
  destruct (fetch_metadata E (clock s) (api_url font_id)) as [e|data].
  - exact (R_trans _ _ _ Hh (R_metafail font_id e _ Hok)).
  - exact (R_trans _ _ _ Hh (lift_download_variants font_id data _ Hok)).
Qed.

Lemma lift_run_fonts font_ids s :
  Forall ok font_ids -> R s (final (run_fonts E base font_ids s)).
Proof.
  intros Hok. revert s. induction Hok as [|f rest Hf Hrest IH]; intros s; simpl;
    [apply R_refl|].
  pose proof (lift_process_font f s Hf) as Hp.
  destruct (process_font E base f s) as [s1|e s1]; simpl in *; [|exact Hp].
  exact (R_trans _ _ _ Hp (IH s1)).
Qed.

Lemma lift_sync font_ids s :
  Forall ok font_ids -> R s (final (sync E base font_ids s)).
Proof.
  intros Hok. unfold sync. pose proof (lift_run_fonts font_ids s Hok) as Hr.
  destruct (run_fonts E base font_ids s) as [s1|e s1]; simpl in *; [|exact Hr].
  exact (R_trans _ _ _ Hr (R_done s1)).
Qed.
End Lift.

Lemma Forall_In_self (font_ids : list string) : Forall (fun f => In f font_ids) font_ids.
Proof. apply List.Forall_forall. intros f Hf. exact Hf. Qed.

(** ** The footprint of a run: files *)


(** X1: a run changes no file other than the targets
    [{font_id}-{400|600|700}.woff2] of the fonts of its list, joined to the
    fonts directory. *)
Theorem writes_only_target_files E base font_ids s p :
  (forall fn, target_name (fun f => In f font_ids) fn -> p <> os_path_join base fn) ->
  fs (final (sync E base font_ids s)) !! p = fs s !! p.
Proof.
  intros Hp.
  apply (lift_sync E base (fun f => In f font_ids)
           (fun a b => fs b !! p = fs a !! p)); try reflexivity.
  - intros a b c Hab Hbc. now rewrite Hbc.
  - intros font_id variant a Hok. rewrite process_variant_target.
    destruct (target font_id variant) as [e|[[filename url]|]] eqn:Ht; try reflexivity.
    simpl. destruct (cache_valid _ _); [reflexivity|]. simpl.
    apply download_other. apply Hp. exact (target_name_of _ _ _ _ _ Ht Hok).
  - apply Forall_In_self.
Qed.

(** X1 at a file of another font in the same directory. *)
Lemma writes_only_target_files_witness :
  let E := mock two_variants (serve 5000) in
  let s := fresh {[ "/fonts/lato-400.woff2"%string := payload 10 ]} 0 in
  fs (final (sync E "/fonts" ["alpha"; "demo"]%string s)) !! "/fonts/lato-400.woff2"%string
  = fs s !! "/fonts/lato-400.woff2"%string.
Proof.
  apply (writes_only_target_files (mock two_variants (serve 5000)) "/fonts"
           ["alpha"; "demo"]%string
           (fresh {[ "/fonts/lato-400.woff2"%string := payload 10 ]} 0)).
  intros fn (f & w & Hf & Hw & ->). simpl in Hf, Hw.
  destruct Hf as [<-|[<-|[]]]; destruct Hw as [<-|[<-|[<-|[]]]]; discriminate.
Defined.

(** X2: a run removes no file: whatever path held a file before the run
    holds one after it, also when the run dies of an exception. *)
Theorem files_are_never_removed E base font_ids s p :
  is_Some (fs s !! p) -> is_Some (fs (final (sync E base font_ids s)) !! p).
Proof.
  apply (lift_sync E base (fun _ => True)
           (fun a b => is_Some (fs a !! p) -> is_Some (fs b !! p))); auto.
  - intros font_id variant a _. rewrite process_variant_target.
    destruct (target font_id variant) as [e|[[filename url]|]]; auto.
    simpl. destruct (cache_valid _ _); auto. simpl. apply download_is_Some.
  - apply List.Forall_forall. auto.
Qed.

(** X2 at a short file whose download fails while the body is read. *)
Lemma files_are_never_removed_witness :
  let E := mock two_variants (fun _ => ReadFails "timed out") in
  let s := fresh {[ "/fonts/demo-400.woff2"%string := payload 10 ]} 0 in
  is_Some (fs (final (sync E "/fonts" ["demo"]%string s)) !! "/fonts/demo-400.woff2"%string).
Proof.
  apply (files_are_never_removed (mock two_variants (fun _ => ReadFails "timed out"))
           "/fonts" ["demo"]%string
           (fresh {[ "/fonts/demo-400.woff2"%string := payload 10 ]} 0)).
  vm_compute. eauto.
Defined.

(** ** The footprint of a run: output *)

Lemma run_fonts_lines E base font_ids s l :
  In l (stdout (final (run_fonts E base font_ids s))) ->
  In l (stdout s) \/ names_target (fun f => In f font_ids) l.
Proof.
  revert l.
  apply (lift_run_fonts E base (fun f => In f font_ids)
           (fun a b => forall l, In l (stdout b) ->
                                 In l (stdout a) \/ names_target (fun f => In f font_ids) l)).
  - auto.
  - intros a b c Hab Hbc l Hl. destruct (Hbc l Hl) as [H|H]; auto.
  - intros font_id variant a Hok l. rewrite process_variant_target.
    destruct (target font_id variant) as [e|[[filename url]|]] eqn:Ht; auto.
    pose proof (target_name_of (fun f => In f font_ids) _ _ _ _ Ht Hok) as Hn.
    simpl. destruct (cache_valid _ _); simpl.
    + rewrite in_app_iff. simpl. intros [H|[<-|[]]]; auto.
    + destruct (download_stdout E filename (os_path_join base filename) url a)
        as (rest & -> & Hrest).
      rewrite in_app_iff. simpl. intros [H|[<-|H]]; auto.
      destruct Hrest as [[-> _]|[(e & -> & _)|(d & -> & _)]]; simpl in H;
        [contradiction| |]; destruct H as [<-|[]]; auto.
  - intros font_id a Hok l. simpl. rewrite in_app_iff. simpl. intros [H|[<-|[]]]; auto.
  - intros font_id e a Hok l. simpl. rewrite in_app_iff. simpl. intros [H|[<-|[]]]; auto.
  - apply Forall_In_self.
Qed.

(** X3: every line a run prints is the last line, or the header or the
    metadata failure of a font of the list, or names a file
    [{font_id}-{400|600|700}.woff2] of a font of the list; a variant id
    outside the three never shows in the output. *)
Theorem lines_name_listed_fonts E base font_ids s l :
  In l (stdout (final (sync E base font_ids s))) ->
  In l (stdout s) \/ l = PDone \/ names_target (fun f => In f font_ids) l.
Proof.
  unfold sync. pose proof (run_fonts_lines E base font_ids s l) as Hr.
  destruct (run_fonts E base font_ids s) as [s1|e s1]; simpl in *.
  - rewrite in_app_iff. simpl. intros [H|[<-|[]]]; [|auto].
    destruct (Hr H); auto.
  - intros H. destruct (Hr H); auto.
Qed.

(** X3 at the line of a downloaded file. *)
Lemma lines_name_listed_fonts_witness :
  In (PDownloaded "demo-400.woff2" 4) (stdout (fresh ∅ 0))
  \/ PDownloaded "demo-400.woff2" 4 = PDone
  \/ names_target (fun f => In f ["alpha"; "demo"]%string) (PDownloaded "demo-400.woff2" 4).
Proof.
  apply (lines_name_listed_fonts (mock two_variants (serve 5000)) "/fonts"
           ["alpha"; "demo"]%string (fresh ∅ 0)).
  vm_compute. auto 10.
Defined.

(** X4: the last line, [Done.], is printed if and only if the run reaches
    the end of the outer loop; a run that dies of an exception never prints
    it. *)
Theorem done_is_printed_iff_completed E base font_ids s :
  ~ In PDone (stdout s) ->
  (In PDone (stdout (final (sync E base font_ids s)))
   <-> completed (sync E base font_ids s) = true).
Proof.
  intros Hs. unfold sync. pose proof (run_fonts_lines E base font_ids s PDone) as Hr.
  destruct (run_fonts E base font_ids s) as [s1|e s1]; simpl in *.
  - rewrite in_app_iff. simpl. intuition.
  - split; [|discriminate]. intros H. destruct (Hr H) as [H'|[]]. contradiction.
Qed.

(** X4 at a run that dies at its first font. *)
Lemma done_is_printed_iff_completed_witness :
  let r := sync (mock array_body (serve 5000)) "/fonts" FONT_IDS (fresh ∅ 0) in
  In PDone (stdout (final r)) <-> completed r = true.
Proof.
  apply (done_is_printed_iff_completed (mock array_body (serve 5000)) "/fonts"
           FONT_IDS (fresh ∅ 0)).
  simpl. tauto.
Defined.

Lemma headers_process_font E base font_id s :
  List.filter is_header (stdout (final (process_font E base font_id s)))
  = List.filter is_header (stdout s) ++ [PFont font_id].
Proof.
  unfold process_font. simpl.
  destruct (fetch_metadata E (clock s) (api_url font_id)) as [e|data].
  - simpl. rewrite !List.filter_app. simpl. now rewrite app_nil_r.
  - transitivity (List.filter is_header (stdout (tick (print (PFont font_id) s)))).
    + apply (lift_download_variants E base (fun _ => True)
               (fun a b => List.filter is_header (stdout b)
                           = List.filter is_header (stdout a))); auto.
      * intros a b c Hab Hbc. now rewrite Hbc.
      * intros f variant a _. rewrite process_variant_target.
        destruct (target f variant) as [e|[[filename url]|]]; auto.
        simpl. destruct (cache_valid _ _); simpl.
        -- rewrite List.filter_app. simpl. now rewrite app_nil_r.
        -- destruct (download_stdout E filename (os_path_join base filename) url a)
             as (rest & -> & Hrest).
           rewrite List.filter_app. simpl.
           destruct Hrest as [[-> _]|[(e & -> & _)|(d & -> & _)]]; simpl;
             now rewrite app_nil_r.
    + simpl. now rewrite List.filter_app.
Qed.

Lemma headers_run_fonts E base font_ids s :
  completed (run_fonts E base font_ids s) = true ->
  List.filter is_header (stdout (final (run_fonts E base font_ids s)))
  = List.filter is_header (stdout s) ++ map PFont font_ids.
Proof.
  revert s. induction font_ids as [|f rest IH]; intros s; simpl.
  - now rewrite app_nil_r.
  - pose proof (headers_process_font E base f s) as Hf.
    destruct (process_font E base f s) as [s1|e s1]; simpl in *; [|discriminate].
    intros Hc. rewrite (IH s1 Hc), Hf, <- app_assoc. reflexivity.
Qed.

(** X5: a run that completes prints one header per font of the list, in the
    order of the list, whatever happens to the font (metadata failure, no
    variant, downloads or failures). *)
Theorem headers_follow_the_list E base font_ids s :
  completed (sync E base font_ids s) = true ->
  List.filter is_header (stdout (final (sync E base font_ids s)))
  = List.filter is_header (stdout s) ++ map PFont font_ids.
Proof.
  unfold sync. pose proof (headers_run_fonts E base font_ids s) as Hr.
  destruct (run_fonts E base font_ids s) as [s1|e s1]; simpl in *; [|discriminate].
  intros _. rewrite List.filter_app. simpl. rewrite app_nil_r. now apply Hr.
Qed.

(** X5 at a batch whose first font fails and whose second is downloaded. *)
Lemma headers_follow_the_list_witness :
  let r := sync (mock two_variants serve_second) "/fonts" ["alpha"; "demo"]%string
                (fresh ∅ 0) in
  List.filter is_header (stdout (final r)) = [] ++ [PFont "alpha"; PFont "demo"].
Proof.
  exact (headers_follow_the_list (mock two_variants serve_second) "/fonts"
           ["alpha"; "demo"]%string (fresh ∅ 0) eq_refl).
Defined.


(** ** What a run leaves on disk *)

(** X7: over a backend whose bodies are longer than 1000 bytes, every file a
    run reports as downloaded is on disk at the end of the run with a
    content of the reported size (in KB, rounded down): nothing later in the
    run overwrites or truncates it. *)
Theorem downloaded_files_are_on_disk E base font_ids s fn kb :
  serves_large E ->
  In (PDownloaded fn kb) (stdout (final (sync E base font_ids s))) ->
  In (PDownloaded fn kb) (stdout s)
  \/ exists data, fs (final (sync E base font_ids s)) !! os_path_join base fn = Some data
                  /\ 1000 < length data /\ kb = length data / 1024.
Proof.
  intros Hlarge.
  set (on_disk := fun (b : state) fn kb =>
         exists data, fs b !! os_path_join base fn = Some data
                      /\ 1000 < length data /\ kb = length data / 1024).
  enough (H : (forall p, cache_valid (fs s) p = true ->
                         fs (final (sync E base font_ids s)) !! p = fs s !! p)
              /\ forall fn kb,
                  In (PDownloaded fn kb) (stdout (final (sync E base font_ids s))) ->
                  In (PDownloaded fn kb) (stdout s)
                  \/ on_disk (final (sync E base font_ids s)) fn kb)
    by (destruct H as [_ H]; apply H).
  apply (lift_sync E base (fun _ => True)
           (fun a b => (forall p, cache_valid (fs a) p = true -> fs b !! p = fs a !! p)
                       /\ forall fn kb, In (PDownloaded fn kb) (stdout b) ->
                                        In (PDownloaded fn kb) (stdout a) \/ on_disk b fn kb)).
  - auto.
  - intros a b c [Kab Dab] [Kbc Dbc]. split.
    + intros p Hp. rewrite Kbc, Kab; auto.
      rewrite <- Hp. apply cache_valid_lookup. auto.
    + intros fn' kb' Hin. destruct (Dbc fn' kb' Hin) as [H|H]; [|now right].
      destruct (Dab fn' kb' H) as [H'|(d & Hd & Hl & Hk)]; [now left|right].
      exists d. repeat split; auto. rewrite Kbc; auto.
      apply cache_valid_spec. eauto.
  - intros font_id variant a _. split.
    + intros p. apply keeps_process_variant.
    + intros fn' kb'. rewrite process_variant_target.
      destruct (target font_id variant) as [e|[[filename url]|]]; auto.
      simpl. destruct (cache_valid _ _); simpl.
      * rewrite in_app_iff. simpl. intros [H|[[=]|[]]]. now left.
      * destruct (download_stdout E filename (os_path_join base filename) url a)
          as (rest & Hl & Hrest).
        rewrite Hl, in_app_iff. simpl. intros [H|[[=]|H]]; [now left|].
        right.
        destruct Hrest as [[-> _]|[(e & -> & _)|(d & -> & _ & Hd & Hfs)]];
          simpl in H; [contradiction| |]; destruct H as [H|[]]; try discriminate.
        injection H as <- <-. exists d. repeat split; [exact Hfs|].
        exact (Hlarge _ _ _ _ Hd).
  - intros font_id a _. split; [auto|]. intros fn' kb'. simpl.
    rewrite in_app_iff. simpl. intros [H|[[=]|[]]]. now left.
  - intros font_id e a _. split; [auto|]. intros fn' kb'. simpl.
    rewrite in_app_iff. simpl. intros [H|[[=]|[]]]. now left.
  - intros a. split; [auto|]. intros fn' kb'. simpl.
    rewrite in_app_iff. simpl. intros [H|[[=]|[]]]. now left.
  - apply List.Forall_forall. auto.
Qed.

(** X7 at a served body of 5000 bytes. *)
Lemma downloaded_files_are_on_disk_witness :
  let r := sync (mock two_variants (serve 5000)) "/fonts" ["demo"]%string (fresh ∅ 0) in
  In (PDownloaded "demo-700.woff2" 4) (stdout (fresh ∅ 0))
  \/ exists data, fs (final r) !! os_path_join "/fonts" "demo-700.woff2" = Some data
                  /\ 1000 < length data /\ 4 = length data / 1024.
Proof.
  apply (downloaded_files_are_on_disk (mock two_variants (serve 5000)) "/fonts"
           ["demo"]%string (fresh ∅ 0) "demo-700.woff2" 4).
  - apply serve_large. lia.
  - vm_compute. auto 10.
Defined.

(** X8: when every target file of the fonts of the list passes the cache
    check, a run changes no file at all and starts no download. *)
Theorem cached_run_changes_no_file E base font_ids s :
  (forall fn, target_name (fun f => In f font_ids) fn ->
              cache_valid (fs s) (os_path_join base fn) = true) ->
  fs (final (sync E base font_ids s)) = fs s
  /\ forall fn, In (PDownloading fn) (stdout (final (sync E base font_ids s))) ->
                In (PDownloading fn) (stdout s).
Proof.
  set (cached := fun a : state =>
         forall fn, target_name (fun f => In f font_ids) fn ->
                    cache_valid (fs a) (os_path_join base fn) = true).
  apply (lift_sync E base (fun f => In f font_ids)
           (fun a b => cached a ->
                       fs b = fs a
                       /\ forall fn, In (PDownloading fn) (stdout b) ->
                                     In (PDownloading fn) (stdout a))).
  - auto.
  - intros a b c Hab Hbc Ha. destruct (Hab Ha) as [Fab Dab].
    assert (Hb : cached b) by (intros fn Hfn; rewrite Fab; auto).
    destruct (Hbc Hb) as [Fbc Dbc]. split; [congruence|auto].
  - intros font_id variant a Hok Ha. rewrite process_variant_target.
    destruct (target font_id variant) as [e|[[filename url]|]] eqn:Ht; auto.
    simpl. rewrite (Ha filename (target_name_of _ _ _ _ _ Ht Hok)). simpl.
    split; [reflexivity|]. intros fn. rewrite in_app_iff. simpl.
    intros [H|[[=]|[]]]. exact H.
  - intros font_id a _ _. split; [reflexivity|]. intros fn. simpl.
    rewrite in_app_iff. simpl. intros [H|[[=]|[]]]. exact H.
  - intros font_id e a _ _. split; [reflexivity|]. intros fn. simpl.
    rewrite in_app_iff. simpl. intros [H|[[=]|[]]]. exact H.
  - intros a _. split; [reflexivity|]. intros fn. simpl.
    rewrite in_app_iff. simpl. intros [H|[[=]|[]]]. exact H.
  - apply Forall_In_self.
Qed.

(** X8 at a cache that holds the three files of the font. *)
Lemma cached_run_changes_no_file_witness :
  let r := sync (mock two_variants (serve 5000)) "/fonts" ["demo"]%string
                (fresh demo_cache 0) in
  fs (final r) = demo_cache
  /\ forall fn, In (PDownloading fn) (stdout (final r)) ->
                In (PDownloading fn) (stdout (fresh demo_cache 0)).
Proof.
  apply (cached_run_changes_no_file (mock two_variants (serve 5000)) "/fonts"
           ["demo"]%string (fresh demo_cache 0)).
  intros fn (f & w & Hf & Hw & ->). simpl in Hf, Hw.
  destruct Hf as [<-|[]]; destruct Hw as [<-|[<-|[<-|[]]]]; reflexivity.
Defined.

(** ** File names *)

Lemma string_length_app (a b : string) :
  String.length (a ++ b)%string = String.length a + String.length b.
Proof. induction a as [|c a IH]; simpl; [reflexivity|now rewrite IH]. Qed.

Lemma string_app_inj_suffix (a a' b b' : string) :
  String.length b = String.length b' ->
  (a ++ b)%string = (a' ++ b')%string -> a = a' /\ b = b'.
Proof.
  intros Hlen. revert a'. induction a as [|c a IH]; intros [|c' a'] Heq; simpl in Heq.
  - auto.
  - apply (f_equal String.length) in Heq.
    rewrite ?string_length_app in Heq. simpl in Heq.
    rewrite ?string_length_app in Heq. lia.
  - apply (f_equal String.length) in Heq.
    rewrite ?string_length_app in Heq. simpl in Heq.
    rewrite ?string_length_app in Heq. lia.
  - injection Heq as <- Heq. destruct (IH a' Heq) as [<- <-]. auto.
Qed.

(** X9: two targets never share a file name: for weights among 400, 600 and
    700 the file name [{font_id}-{weight}.woff2] determines the font id and
    the weight, whatever characters the font ids hold. *)
Theorem filename_of_injective f1 w1 f2 w2 :
  In w1 canonical_weights -> In w2 canonical_weights ->
  filename_of f1 w1 = filename_of f2 w2 -> f1 = f2 /\ w1 = w2.
Proof.
  unfold filename_of, canonical_weights. simpl.
  intros [<-|[<-|[<-|[]]]] [<-|[<-|[<-|[]]]] Heq;
    apply string_app_inj_suffix in Heq; try reflexivity;
    destruct Heq as [-> Heq]; (split; [reflexivity|]);
    first [reflexivity | discriminate Heq].
Qed.

(** X9 at the regular file of a font. *)
Lemma filename_of_injective_witness :
  "lato"%string = "lato"%string /\ "400"%string = "400"%string.
Proof.
  apply (filename_of_injective "lato" "400" "lato" "400");
    [simpl; auto | simpl; auto | reflexivity].
Defined.

(** ** Variants that are passed over, bodies that end the run *)

Lemma print_changes l s : print l s <> s.
Proof.
  intros H. apply (f_equal (fun a => length (stdout a))) in H. simpl in H.
  rewrite length_app in H. simpl in H. lia.
Qed.

Lemma download_changes E filename out url s :
  download E filename out url s <> Completed s.
Proof.
  intros H. apply (f_equal (fun r => clock (final r))) in H.
  rewrite download_clock in H. simpl in H. lia.
Qed.

(** X10: a turn of the inner loop leaves the state as it found it (no line,
    no request, no file) if and only if the variant is an object whose id is
    not one of regular, 600 and 700 (or is missing, or is not a string) or
    whose woff2 value is missing or falsy. *)
Theorem variant_passed_over_iff E base font_id variant s :
  process_variant E base font_id variant s = Completed s
  <-> exists members,
        variant = JObj members
        /\ forall vid, dict_get members "id" (JStr "") = JStr vid ->
                       supported vid = true ->
                       truthy (dict_get members "woff2" (JStr "")) = false.
Proof.
  rewrite process_variant_target. unfold target.
  destruct variant as [ | | | | | |members];
    try (split; [discriminate | now intros (m & [=] & _)]).
  split.
  - intros H. exists members. split; [reflexivity|]. intros vid Hid Hsup.
    rewrite Hid, Hsup in H. simpl in H.
    destruct (truthy (dict_get members "woff2" (JStr ""))); [|reflexivity].
    exfalso. simpl in H. destruct (cache_valid _ _).
    + injection H as H. exact (print_changes _ _ H).
    + exact (download_changes _ _ _ _ _ H).
  - intros (m & [= <-] & H).
    destruct (dict_get members "id" (JStr "")) as [ | | | |vid| |]; try reflexivity.
    destruct (supported vid) eqn:Hsup; [|reflexivity].
    now rewrite (H vid eq_refl Hsup).
Qed.

(** X11: over a backend whose metadata answers do not change with time and
    whose download failures have messages that can be printed, a run
    reaches its last line if and only if every font of the list either fails
    at the metadata request or has a body of the expected shape; the first
    font that does neither ends the run. *)
Theorem sync_completes_iff E base font_ids s :
  (forall t t' url, fetch_metadata E t url = fetch_metadata E t' url) ->
  printable E ->
  completed (sync E base font_ids s) = forallb (font_passes E) font_ids.
Proof.
  intros Hst Hprint.
  assert (Hfont : forall f a, completed (process_font E base f a) = font_passes E f).
  { intros f a. unfold process_font, font_passes. simpl.
    rewrite (Hst (clock a) 0).
    destruct (fetch_metadata E 0 (api_url f)); [reflexivity|].
    now apply completed_download_variants. }
  assert (Hrun : forall a, completed (run_fonts E base font_ids a)
                           = forallb (font_passes E) font_ids).
  { induction font_ids as [|f rest IH]; intros a; simpl; [reflexivity|].
    rewrite <- (Hfont f a).
    destruct (process_font E base f a) as [s1|e s1]; simpl; auto. }
  unfold sync. rewrite <- (Hrun s).
  now destruct (run_fonts E base font_ids s).
Qed.

(** X11 at a backend that answers every font with the body [[]]. *)
Lemma sync_completes_iff_witness :
  completed (sync (mock array_body (serve 5000)) "/fonts" FONT_IDS (fresh ∅ 0))
  = forallb (font_passes (mock array_body (serve 5000))) FONT_IDS.
Proof.
  apply (sync_completes_iff (mock array_body (serve 5000)) "/fonts" FONT_IDS (fresh ∅ 0)).
  - reflexivity.
  - apply serve_printable.
Defined.

Lemma forallb_is_dict_chars str : forallb is_dict (str_chars str) = true <-> str = ""%string.
Proof. destruct str; simpl; split; auto; discriminate. Qed.

Lemma forallb_is_dict_keys members :
  forallb is_dict (map JStr (dict_keys [] members)) = true <-> members = [].
Proof. destruct members as [|[k v] rest]; simpl; split; auto; discriminate. Qed.

(** X12: when the messages of failed downloads can be printed, the inner
    loop goes through a parsed body without an exception if and only if the
    body is an object whose ['variants'] member is missing, or is an array
    of objects, or is an empty string or an empty object; [null], a number,
    a boolean, a non-empty string or object, or an array with an element
    that is not an object end the run. *)
Theorem inner_loop_completes_iff E base font_id data s :
  printable E ->
  completed (download_variants E base font_id data s) = true
  <-> exists members,
        data = JObj members
        /\ match dict_lookup members "variants" with
           | None => True
           | Some (JArr items) => forallb is_dict items = true
           | Some (JStr str) => str = ""%string
           | Some (JObj inner) => inner = []
           | Some _ => False
           end.
Proof.
  intros Hprint. rewrite (completed_download_variants E base Hprint).
  unfold well_shaped, dict_get.
  destruct data as [ | | | | | |members];
    try (split; [discriminate | now intros (m & [=] & _)]).
  split.
  - intros H. exists members. split; [reflexivity|].
    destruct (dict_lookup members "variants") as [[ | | | |str|items|inner]|];
      simpl in H; try discriminate; auto.
    + now apply forallb_is_dict_chars.
    + now apply forallb_is_dict_keys.
  - intros (m & [= <-] & H).
    destruct (dict_lookup members "variants") as [[ | | | |str|items|inner]|];
      simpl; try contradiction; auto.
    + now apply forallb_is_dict_chars.
    + now apply forallb_is_dict_keys.
Qed.

(** X12 at a body whose ['variants'] is an empty string. *)
Lemma inner_loop_completes_iff_witness :
  completed (download_variants (mock two_variants (serve 5000)) "/fonts" "demo"
               (JObj [("variants", JStr "")]) (fresh ∅ 0)) = true
  <-> exists members,
        JObj [("variants", JStr "")] = JObj members
        /\ match dict_lookup members "variants" with
           | None => True
           | Some (JArr items) => forallb is_dict items = true
           | Some (JStr str) => str = ""%string
           | Some (JObj inner) => inner = []
           | Some _ => False
           end.
Proof.
  apply (inner_loop_completes_iff (mock two_variants (serve 5000)) "/fonts" "demo"
           (JObj [("variants", JStr "")]) (fresh ∅ 0)).
  apply serve_printable.
Defined.

(** X13: an exception that nothing catches ends the whole run at its font:
    the fonts before it have been processed as in a run over them alone,
    the fonts after it are not touched, and the last line is not printed. *)
Theorem uncaught_exception_ends_the_run E base pre font_id post s s1 s2 e :
  run_fonts E base pre s = Completed s1 ->
  process_font E base font_id s1 = Uncaught e s2 ->
  sync E base (pre ++ font_id :: post) s = Uncaught e s2
  /\ sync E base (pre ++ [font_id]) s = Uncaught e s2.
Proof.
  intros Hpre Hfont. unfold sync. rewrite !run_fonts_app, Hpre. simpl.
  rewrite Hfont. simpl. split; reflexivity.
Qed.

(** X13 at a batch whose second font has [null] for variants. *)
Lemma uncaught_exception_ends_the_run_witness :
  let E := mock (fun url => if String.eqb url (api_url "alpha")
                            then two_variants url else null_variants url)
                (serve 5000) in
  let s2 := {| fs := ∅; clock := 2;
               stdout := [PFont "alpha";
                          PMetaFail "alpha" "HTTP Error 500: Internal Server Error";
                          PFont "beta"] |} in
  sync E "/fonts" ["alpha"; "beta"; "demo"]%string (fresh ∅ 0) = Uncaught TypeError s2
  /\ sync E "/fonts" ["alpha"; "beta"]%string (fresh ∅ 0) = Uncaught TypeError s2.
Proof.
  exact (uncaught_exception_ends_the_run
           (mock (fun url => if String.eqb url (api_url "alpha")
                             then two_variants url else null_variants url)
                 (serve 5000))
           "/fonts" ["alpha"%string] "beta" ["demo"%string] (fresh ∅ 0)
           {| fs := ∅; clock := 1;
              stdout := [PFont "alpha";
                         PMetaFail "alpha" "HTTP Error 500: Internal Server Error"] |}
           {| fs := ∅; clock := 2;
              stdout := [PFont "alpha";
                         PMetaFail "alpha" "HTTP Error 500: Internal Server Error";
                         PFont "beta"] |}
           TypeError eq_refl eq_refl).
Defined.

(** ** Failures that are reported *)

(** X14: when the download of one variant fails (the request, the opening
    of the file, the reading of the body or the write) with a message that
    can be printed, the variant gets one failure line, no other file
    changes, the variants after it are attempted from that state and the
    outer loop goes on with the next font. *)
Theorem reported_download_error_skips_one_variant
    E base font_id rest dm pre members vid post s s1 e left :
  fetch_metadata E (clock s) (api_url font_id) = inr (JObj dm) ->
  py_iter (dict_get dm "variants" (JArr [])) = inr (pre ++ JObj members :: post) ->
  run_variants E base font_id pre (tick (print (PFont font_id) s)) = Completed s1 ->
  dict_get members "id" (JStr "") = JStr vid ->
  supported vid = true ->
  truthy (dict_get members "woff2" (JStr "")) = true ->
  let url := dict_get members "woff2" (JStr "") in
  let filename := filename_of font_id (weight_of vid) in
  let out := os_path_join base filename in
  cache_valid (fs s1) out = false ->
  failure_of (fetch_asset E (clock s1) url out) = Some (e, left) ->
  encodable e = true ->
  let s2 := {| fs := fs (after_failure out left s1); clock := S (clock s1);
               stdout := stdout s1 ++ [PDownloading filename; PFail filename e] |} in
  process_variant E base font_id (JObj members) s1 = Completed s2
  /\ (forall p, p <> out -> fs s2 !! p = fs s1 !! p)
  /\ run_fonts E base (font_id :: rest) s
     = and_then (run_variants E base font_id post s2) (run_fonts E base rest).
Proof.
  intros Hmeta Hiter Hpre Hid Hsup Hurl url filename out Hc Hfail Henc s2.
  assert (Hv : process_variant E base font_id (JObj members) s1 = Completed s2).
  { rewrite process_variant_target. unfold target. rewrite Hid, Hsup, Hurl. simpl.
    fold url filename out. rewrite Hc.
    rewrite (download_failure E filename out url s1 e left Hfail).
    unfold report_failure. rewrite Henc. f_equal. unfold s2, print, tick.
    destruct left; simpl; rewrite <- app_assoc; reflexivity. }
  repeat split.
  - exact Hv.
  - intros p Hp. unfold s2. simpl. destruct left; simpl; [|reflexivity].
    apply lookup_insert_ne. congruence.
  - simpl. unfold process_font. simpl. rewrite Hmeta.
    unfold download_variants, py_get. rewrite Hiter.
    rewrite run_variants_app, Hpre. simpl. now rewrite Hv.
Qed.

(** X14 at a font with a regular variant whose URL answers 404 and a bold
    variant that is served. *)
Lemma reported_download_error_skips_one_variant_witness :
  let E := mock two_variants serve_second in
  let s1 := {| fs := ∅; clock := 1; stdout := [PFont "gamma"] |} in
  let s2 := {| fs := ∅; clock := 2;
               stdout := [PFont "gamma"; PDownloading "gamma-400.woff2";
                          PFail "gamma-400.woff2" "HTTP Error 404: Not Found"] |} in
  process_variant E "/fonts" "gamma" (variant_entry "regular" "URL_A") s1 = Completed s2
  /\ (forall p, p <> "/fonts/gamma-400.woff2"%string -> fs s2 !! p = fs s1 !! p)
  /\ run_fonts E "/fonts" ["gamma"; "demo"]%string (fresh ∅ 0)
     = and_then (run_variants E "/fonts" "gamma"
                   [variant_entry "300" "URL_C"; variant_entry "700" "URL_B"] s2)
                (run_fonts E "/fonts" ["demo"]%string).
Proof.
  exact (reported_download_error_skips_one_variant (mock two_variants serve_second) "/fonts"
           "gamma" ["demo"%string]
           [("id", JStr "demo");
            ("variants", JArr [variant_entry "regular" "URL_A";
                               variant_entry "300" "URL_C";
                               variant_entry "700" "URL_B"])]
           [] [("id", JStr "regular"); ("woff2", JStr "URL_A")] "regular"
           [variant_entry "300" "URL_C"; variant_entry "700" "URL_B"]
           (fresh ∅ 0) {| fs := ∅; clock := 1; stdout := [PFont "gamma"] |}
           "HTTP Error 404: Not Found" None
           eq_refl eq_refl eq_refl eq_refl eq_refl eq_refl eq_refl eq_refl eq_refl).
Defined.
